(** * Session manager of neko (internal/session): authentication, session
    registry, host arbitration, broadcast and lifecycle events.

    The Go code of [internal/session] is embedded as functions of a small
    state-and-panic monad over a [World]: the fields of the one
    [SessionManagerCtx], the store of the [*SessionCtx] objects it points
    to, and the trace of the calls it makes to its collaborators. *)

From Stdlib Require Import String Ascii ZArith Lia.
From stdpp Require Import base option list gmap strings.

Local Open Scope string_scope.
Local Open Scope list_scope.

(** ** Go strings (byte strings) *)

(** [s[lo:hi]] and [s[lo:]]; both are only used under a length guard. *)
Definition slice (lo hi : nat) (s : string) : string := substring lo (hi - lo) s.
Definition slice_from (lo : nat) (s : string) : string :=
  substring lo (String.length s - lo) s.

(** [strings.ToUpper], on bytes.  Go maps runes; a byte below 0x80 is an
    ASCII rune and is mapped as here.  The source only compares the result
    with ["BEARER"], and no rune outside ASCII has B, E, A or R as its upper
    case, so bytes from 0x80 on are left as they are. *)
Definition ascii_ToUpper (c : ascii) : ascii :=
  let n := nat_of_ascii c in
  if (97 <=? n)%nat && (n <=? 122)%nat then ascii_of_nat (n - 32) else c.

Fixpoint strings_ToUpper (s : string) : string :=
  match s with
  | EmptyString => EmptyString
  | String c s' => String (ascii_ToUpper c) (strings_ToUpper s')
  end.

(** ** net/http requests, as far as [getToken] reads them *)

Record Cookie := mkCookie { Cookie_Name : string; Cookie_Value : string }.

Record Request := mkRequest {
  URL_Query : gmap string (list string);   (* r.URL.Query() : url.Values *)
  Header : gmap string (list string);      (* r.Header, canonical keys *)
  Cookies : list Cookie                    (* the cookies sent, in order *)
}.

(** [url.Values.Get] and [http.Header.Get]: the first value of the key, or
    the empty string. *)
Definition Values_Get (v : gmap string (list string)) (key : string) : string :=
  match v !! key with
  | Some (x :: _) => x
  | _ => ""
  end.

(** [r.Cookie(name)]: the first cookie of that name; [None] is
    [http.ErrNoCookie]. *)
Definition Request_Cookie (r : Request) (name : string) : option Cookie :=
  List.find (fun c => String.eqb (Cookie_Name c) name) (Cookies r).

Definition token_name : string := "password".

Definition getToken (r : Request) : string :=
  (* Get token from query *)
  let token := Values_Get (URL_Query r) token_name in
  if negb (String.eqb token "") then token else
  (* Get token from authorization header *)
  let bearer := Values_Get (Header r) "Authorization" in
  if (7 <? String.length bearer)%nat
     && String.eqb (strings_ToUpper (slice 0 6 bearer)) "BEARER"
  then slice_from 7 bearer else
  (* Get token from cookie *)
  match Request_Cookie r token_name with
  | Some cookie => Cookie_Value cookie
  | None => ""
  end.

(** The header test of [getToken]. *)
Definition bearer_test (bearer : string) : bool :=
  (7 <? String.length bearer)%nat
  && String.eqb (strings_ToUpper (slice 0 6 bearer)) "BEARER".

(** A header value made of a six-character scheme that reads "bearer"
    whatever the case of its letters, one separating character, and a
    non-empty token. *)
Definition bearer_form (bearer : string) (sep : ascii) (token : string) : Prop :=
  exists scheme,
    bearer = scheme +:+ String sep token
    /\ String.length scheme = 6
    /\ strings_ToUpper scheme = strings_ToUpper "Bearer"
    /\ token <> "".

(** The extraction as the specification words it: the query parameter;
    else a header [Bearer <token>], the scheme in any case, followed by a
    space, the token being what follows the 7th character; else the cookie. *)
Definition getToken_spec (r : Request) : string :=
  let token := Values_Get (URL_Query r) token_name in
  if negb (String.eqb token "") then token else
  let bearer := Values_Get (Header r) "Authorization" in
  if (7 <? String.length bearer)%nat
     && String.eqb (strings_ToUpper (slice 0 6 bearer)) (strings_ToUpper "Bearer")
     && String.eqb (slice 6 7 bearer) " "
  then slice_from 7 bearer else
  match Request_Cookie r token_name with
  | Some cookie => Cookie_Value cookie
  | None => ""
  end.

(** A character that is a given letter in either case. *)
Definition spelled (upper lower c : ascii) : Prop := c = upper \/ c = lower.

(** A header value of at least eight characters whose first six spell
    "bearer", each letter in either case. *)
Definition bearer_spelling (bearer : string) (sep : ascii) (token : string) : Prop :=
  exists c1 c2 c3 c4 c5 c6,
    bearer = String c1 (String c2 (String c3 (String c4 (String c5 (String c6
               (String sep token))))))
    /\ spelled "B" "b" c1 /\ spelled "E" "e" c2 /\ spelled "A" "a" c3
    /\ spelled "R" "r" c4 /\ spelled "E" "e" c5 /\ spelled "R" "r" c6
    /\ token <> "".

(** ** Data of the session package *)

(** A Go [error]; [fmt.Errorf] builds one from its message. *)
Inductive error := Errorf (msg : string).

Definition CredentialMissing : error := Errorf "no password provided".
Definition CredentialInvalid : error := Errorf "invalid password".
Definition MemberNotFound : error := Errorf "Member not found.".

(** [config.Session], the fields the package reads. *)
Record Config := mkConfig {
  AdminPassword : string;
  Password : string;
  cfg_ImplicitHosting : bool
}.

Record MemberProfile := mkProfile {
  Secret : string;
  Name : string;
  IsAdmin : bool
}.

(** Modelled from the spec: the declaration of [SessionCtx] is not in this
    file of the package.  [id] and [profile] are the fields [Create] sets;
    [connected] is the flag of spec section 3, read by [IsConnected] and
    false in a fresh struct.  The [manager] back-reference and the logger
    carry no state of their own. *)
Record SessionCtx := mkSession {
  id : string;
  profile : MemberProfile;
  connected : bool
}.

(** A [*SessionCtx]: the address of a session in the store. *)
Definition loc := nat.

(** A subscriber callback handed to [OnHost] and the like: code of the
    caller, known here by a name only. *)
Definition Listener := nat.

(** The six function literals the [On...] methods register with the
    emitter, each closing over the caller's listener. *)
Inductive Closure :=
| OnHost_func (listener : Listener)
| OnHostCleared_func (listener : Listener)
| OnConnected_func (listener : Listener)
| OnDisconnected_func (listener : Listener)
| OnReceivingStarted_func (listener : Listener)
| OnReceivingStopped_func (listener : Listener).

(** [types.CaptureManager], the part the package calls. *)
Class CaptureManager (C : Type) := {
  Streaming : C -> bool;
  StartStream : C -> C;
  StopStream : C -> C
}.

(** Outcome of a call: a normal return or a Go panic. *)
Inductive Res (A : Type) :=
| Ret (a : A)
| Panic (msg : string).
Arguments Ret {A} a.
Arguments Panic {A} msg.

Definition nil_assertion : string :=
  "interface conversion: interface {} is nil, not *session.SessionCtx".

Section Manager.

Context {Capture : Type} `{!CaptureManager Capture} {Payload : Type}.

(** Calls that leave the manager, in the order they are made. *)
Inductive Event :=
| ENewUID (length : Z)
| EEmit (name : string) (payload : option loc)
| ECall (listener : Listener) (session : loc)
| EStartStream
| EStopStream
| ESend (session : loc) (v : Payload)
| EDisconnect (session : loc) (reason : string)
| EWarn (msg : string) (err : error).

(** The fields of [SessionManagerCtx] (the two mutexes left out: one
    thread of control), then the session store and the trace.  A
    [types.Session] value is [None] for the nil interface and [Some l] for
    the [*SessionCtx] at [l]. *)
Record World := mkWorld {
  host : option loc;
  capture : Capture;
  config : Config;
  members : gmap string loc;
  emmiter : gmap string (list Closure);
  heap : list SessionCtx;
  trace : list Event
}.

Definition set_host (h : option loc) (w : World) : World :=
  mkWorld h (capture w) (config w) (members w) (emmiter w) (heap w) (trace w).
Definition set_capture (c : Capture) (w : World) : World :=
  mkWorld (host w) c (config w) (members w) (emmiter w) (heap w) (trace w).
Definition set_members (m : gmap string loc) (w : World) : World :=
  mkWorld (host w) (capture w) (config w) m (emmiter w) (heap w) (trace w).
Definition set_emmiter (e : gmap string (list Closure)) (w : World) : World :=
  mkWorld (host w) (capture w) (config w) (members w) e (heap w) (trace w).
Definition set_heap (h : list SessionCtx) (w : World) : World :=
  mkWorld (host w) (capture w) (config w) (members w) (emmiter w) h (trace w).
Definition set_trace (t : list Event) (w : World) : World :=
  mkWorld (host w) (capture w) (config w) (members w) (emmiter w) (heap w) t.

(** ** The monad *)

Definition M (A : Type) : Type := World -> Res A * World.

Definition ret {A} (a : A) : M A := fun w => (Ret a, w).

Definition bind {A B} (m : M A) (f : A -> M B) : M B := fun w =>
  match m w with
  | (Ret a, w') => f a w'
  | (Panic msg, w') => (Panic msg, w')
  end.

Definition panic {A} (msg : string) : M A := fun w => (Panic msg, w).
Definition gets {A} (f : World -> A) : M A := fun w => (Ret (f w), w).
Definition modify (f : World -> World) : M unit := fun w => (Ret tt, f w).
Definition log (e : Event) : M unit :=
  modify (fun w => set_trace (trace w ++ [e]) w).

Notation "'let*' x ':=' m 'in' k" := (bind m (fun x => k))
  (at level 10, x name, m at level 100, k at level 200).
Notation "m ';;' k" := (bind m (fun _ => k))
  (at level 100, k at level 200, right associativity).

(** [for _, x := range xs { body x }] *)
Fixpoint for_each {A} (xs : list A) (body : A -> M unit) : M unit :=
  match xs with
  | [] => ret tt
  | x :: xs' => body x ;; for_each xs' body
  end.

(** ** Collaborators *)

(** [utils.NewUID], [Session.Send] and [Session.Disconnect] are not code of
    this file; what they answer may depend on everything that happened so
    far.  [Send] is a transport operation and writes no session;
    [Disconnect] may rewrite the session store.  Go's [range] over a map
    visits every entry once, in an order of its choosing. *)
Class Collaborators := {
  utils_NewUID : Z -> World -> error + string;
  session_Send : loc -> Payload -> World -> option error;
  session_Disconnect : loc -> string -> World -> option error * list SessionCtx;
  range : gmap string loc -> list (string * loc);
  range_perm : forall m, range m ≡ₚ map_to_list m
}.

Context `{!Collaborators}.

Definition NewUID (length : Z) : M (error + string) := fun w =>
  (Ret (utils_NewUID length w), set_trace (trace w ++ [ENewUID length]) w).

(** Reading through a pointer the store does not hold cannot happen in Go;
    the zero value stands in for it. *)
Definition deref (l : loc) (w : World) : SessionCtx :=
  default (mkSession "" (mkProfile "" "" false) false) (heap w !! l).

(** Modelled from the spec: the methods [IsConnected] and [IsAdmin] of
    [SessionCtx] are not in this file.  Spec section 3: [connected] is the
    flag the session reports; spec section 4.4: an admin session is one
    whose profile is admin. *)
Definition IsConnected (session : loc) : M bool :=
  gets (fun w => connected (deref session w)).
Definition Session_IsAdmin (session : loc) : M bool :=
  gets (fun w => IsAdmin (profile (deref session w))).

Definition Send (session : loc) (v : Payload) : M (option error) := fun w =>
  (Ret (session_Send session v w), set_trace (trace w ++ [ESend session v]) w).

Definition Disconnect (session : loc) (reason : string) : M (option error) := fun w =>
  let '(err, h) := session_Disconnect session reason w in
  (Ret err, set_trace (trace w ++ [EDisconnect session reason]) (set_heap h w)).

(** [&SessionCtx{...}] *)
Definition alloc (s : SessionCtx) : M loc := fun w =>
  (Ret (length (heap w)), set_heap (heap w ++ [s]) w).

(** Modelled from the spec: [utils.ArrayIn] is not in this file.  Spec
    section 4.4: a membership test against the provided id collection.  Its
    second result, an index, is dropped at both call sites. *)
Definition ArrayIn (val : string) (array : list string) : bool :=
  bool_decide (val ∈ array).

(** ** The session registry *)

Definition Create (id : string) (profile : MemberProfile) : M loc :=
  let* session := alloc (mkSession id profile false) in
  modify (fun w => set_members (<[id := session]> (members w)) w) ;;
  ret session.

(** [Get] answers [(session, ok)]: [Some l] is [(l, true)], [None] is
    [(nil, false)]. *)
Definition Get (id : string) : M (option loc) :=
  gets (fun w => members w !! id).

Definition Delete (id : string) : M (option error) :=
  let* found := gets (fun w => members w !! id) in
  match found with
  | None => ret (Some MemberNotFound)
  | Some session =>
      modify (fun w => set_members (delete id (members w)) w) ;;
      let* c := IsConnected session in
      if c then Disconnect session "member deleted"
      else ret None
  end.

(** [New(capture, config)]: the manager at process start. *)
Definition New (capture : Capture) (config : Config) : World :=
  let manager := mkWorld None capture config ∅ ∅ [] [] in
  snd ((Create "admin" (mkProfile (AdminPassword config) "Administrator" true) ;;
        Create "user" (mkProfile (Password config) "User" false)) manager).

(** ** Authentication *)

(** Modelled from the spec: the method [manager.New(id, isAdmin)] that
    [Authenticate] calls is not in this file.  Spec section 4.1, step 4:
    register a new session through [Create] with the minted id and a profile
    marking only the [isAdmin] flag (no display name, no stored secret). *)
Definition manager_New (id : string) (isAdmin : bool) : M loc :=
  Create id (mkProfile "" "" isAdmin).

(** Go's [(types.Session, error)]: [inl err] or [inr session]. *)
Definition Authenticate (r : Request) : M (error + loc) :=
  let token := getToken r in
  if String.eqb token "" then ret (inl CredentialMissing) else
  let* cfg := gets config in
  let isAdmin := String.eqb token (AdminPassword cfg) in
  let isUser := String.eqb token (Password cfg) in
  if negb isAdmin && negb isUser then ret (inl CredentialInvalid) else
  let* uid := NewUID 32 in
  match uid with
  | inl err => ret (inl err)
  | inr id =>
      let* session := manager_New id isAdmin in
      ret (inr session)
  end.

(** ** Events *)

(** The emitter of github.com/kataras/go-events, as the package uses it:
    [On] appends a listener to those of an event, [Emit] calls the
    listeners of the event one after the other, in that order. *)
Definition listeners_of (name : string) (w : World) : list Closure :=
  default [] (emmiter w !! name).

Definition On (name : string) (f : Closure) : M unit :=
  modify (fun w => set_emmiter (<[name := listeners_of name w ++ [f]]> (emmiter w)) w).

(** The type assertion of [payload[0]] to [*SessionCtx]: it panics on the
    nil interface. *)
Definition assert_SessionCtx (payload : option loc) : M loc :=
  match payload with
  | Some session => ret session
  | None => panic nil_assertion
  end.

Definition call (listener : Listener) (session : loc) : M unit :=
  log (ECall listener session).

Definition capture_Streaming : M bool := gets (fun w => Streaming (capture w)).
Definition capture_StartStream : M unit :=
  modify (fun w => set_capture (StartStream (capture w)) w) ;; log EStartStream.
Definition capture_StopStream : M unit :=
  modify (fun w => set_capture (StopStream (capture w)) w) ;; log EStopStream.

(** The loop of [HasConnectedMembers]: it returns true at the first
    connected session, false when the map is exhausted. *)
Definition any_connected (w : World) : bool :=
  existsb (fun kv => connected (deref (snd kv) w)) (range (members w)).

Definition HasConnectedMembers : M bool := gets any_connected.

(** The body of each registered function literal. *)
Definition run (f : Closure) (payload : option loc) : M unit :=
  match f with
  | OnHost_func listener =>
      let* session := assert_SessionCtx payload in call listener session
  | OnHostCleared_func listener =>
      let* session := assert_SessionCtx payload in call listener session
  | OnConnected_func listener =>
      (* Start streaming, when first joins *)
      let* streaming := capture_Streaming in
      (if negb streaming then capture_StartStream else ret tt) ;;
      let* session := assert_SessionCtx payload in call listener session
  | OnDisconnected_func listener =>
      (* Stop streaming, if everyone left *)
      let* streaming := capture_Streaming in
      let* stop := (if streaming
                    then (let* some := HasConnectedMembers in ret (negb some))
                    else ret false) in
      (if stop then capture_StopStream else ret tt) ;;
      let* session := assert_SessionCtx payload in call listener session
  | OnReceivingStarted_func listener =>
      let* session := assert_SessionCtx payload in call listener session
  | OnReceivingStopped_func listener =>
      let* session := assert_SessionCtx payload in call listener session
  end.

Definition Emit (name : string) (payload : option loc) : M unit :=
  log (EEmit name payload) ;;
  let* listeners := gets (listeners_of name) in
  for_each listeners (fun f => run f payload).

Definition OnHost (listener : Listener) : M unit :=
  On "host" (OnHost_func listener).
Definition OnHostCleared (listener : Listener) : M unit :=
  On "host_cleared" (OnHostCleared_func listener).
Definition OnConnected (listener : Listener) : M unit :=
  On "connected" (OnConnected_func listener).
Definition OnDisconnected (listener : Listener) : M unit :=
  On "disconnected" (OnDisconnected_func listener).
Definition OnReceivingStarted (listener : Listener) : M unit :=
  On "receiving_started" (OnReceivingStarted_func listener).
Definition OnReceivingStopped (listener : Listener) : M unit :=
  On "receiving_stopped" (OnReceivingStopped_func listener).

(** ** Host *)

Definition HasHost : M bool := gets (fun w => bool_decide (host w <> None)).

Definition SetHost (h : option loc) : M unit :=
  modify (set_host h) ;; Emit "host" h.

Definition GetHost : M (option loc) := gets host.

Definition ClearHost : M unit :=
  let* h := gets host in
  modify (set_host None) ;;
  Emit "host_cleared" h.

(** ** Members list *)

Definition Members : M (list loc) :=
  gets (fun w => map snd (range (members w))).

(** [exclude] is Go's [interface{}]: [None] for nil, else the id
    collection handed to [utils.ArrayIn]. *)
Definition excluded (id : string) (exclude : option (list string)) : bool :=
  match exclude with
  | Some array => ArrayIn id array
  | None => false
  end.

Definition Broadcast (v : Payload) (exclude : option (list string)) : M unit :=
  let* entries := gets (fun w => range (members w)) in
  for_each entries (fun '(id, session) =>
    let* c := IsConnected session in
    if negb c then ret tt else
    if excluded id exclude then ret tt else
    let* err := Send session v in
    match err with
    | Some e => log (EWarn "broadcasting event has failed" e)
    | None => ret tt
    end).

Definition AdminBroadcast (v : Payload) (exclude : option (list string)) : M unit :=
  let* entries := gets (fun w => range (members w)) in
  for_each entries (fun '(id, session) =>
    let* c := IsConnected session in
    let* a := Session_IsAdmin session in
    if negb c || negb a then ret tt else
    if excluded id exclude then ret tt else
    let* err := Send session v in
    match err with
    | Some e => log (EWarn "broadcasting admin event has failed" e)
    | None => ret tt
    end).

(** ** Reading a trace *)

(** The events raised, and the deliveries attempted, in order. *)
Definition emits (t : list Event) : list (string * option loc) :=
  omap (fun e => match e with EEmit name payload => Some (name, payload) | _ => None end) t.

Definition sends (t : list Event) : list (loc * Payload) :=
  omap (fun e => match e with ESend session v => Some (session, v) | _ => None end) t.

Definition calls (session : loc) (listeners : list Listener) : list Event :=
  map (fun listener => ECall listener session) listeners.

(** Whether a registered session is one a broadcast is for: connected, an
    admin when only admins are addressed, its id not excluded. *)
Definition recipient (admins_only : bool) (exclude : option (list string)) (w : World)
    (entry : string * loc) : bool :=
  connected (deref (snd entry) w)
  && (negb admins_only || IsAdmin (profile (deref (snd entry) w)))
  && negb (excluded (fst entry) exclude).

(** An event a broadcast of [v] may add: a delivery of [v], or a warning. *)
Definition fan_out_event (v : Payload) (e : Event) : Prop :=
  match e with
  | ESend _ v' => v' = v
  | EWarn _ _ => True
  | _ => False
  end.

(** What running one registered function may change: the capture state and
    the trace, by events that are not [EEmit]. *)
Definition quiet (w w' : World) : Prop :=
  host w' = host w /\ members w' = members w /\ heap w' = heap w
  /\ emmiter w' = emmiter w /\ config w' = config w
  /\ exists evs, trace w' = trace w ++ evs /\ emits evs = [].

(** The world [Authenticate] leaves on a successful path: the minter
    answered [id] and the session was registered. *)
Definition registered (id : string) (isAdmin : bool) (w : World) : World :=
  set_members (<[id := length (heap w)]> (members w))
    (set_heap (heap w ++ [mkSession id (mkProfile "" "" isAdmin) false])
       (set_trace (trace w ++ [ENewUID 32]) w)).

(** ** Store invariant *)

(** Every registered pointer is held by the store. *)
Definition store_closed (w : World) : Prop :=
  map_Forall (fun _ (l : loc) => l < length (heap w)) (members w).

(** ** Registered functions and the registry, as predicates *)

(** The event whose [On...] method builds a function literal, and the
    listener the literal closes over. *)
Definition event_of (f : Closure) : string :=
  match f with
  | OnHost_func _ => "host"
  | OnHostCleared_func _ => "host_cleared"
  | OnConnected_func _ => "connected"
  | OnDisconnected_func _ => "disconnected"
  | OnReceivingStarted_func _ => "receiving_started"
  | OnReceivingStopped_func _ => "receiving_stopped"
  end.

Definition listener_of (f : Closure) : Listener :=
  match f with
  | OnHost_func listener | OnHostCleared_func listener
  | OnConnected_func listener | OnDisconnected_func listener
  | OnReceivingStarted_func listener | OnReceivingStopped_func listener => listener
  end.

(** Every function literal sits under the event its method names. *)
Definition emitter_wf (w : World) : Prop :=
  forall name f, f ∈ listeners_of name w -> event_of f = name.

(** Every registered pointer leads to a stored session that carries the id
    it is registered under. *)
Definition registry_consistent (w : World) : Prop :=
  forall k (l : loc), members w !! k = Some l ->
    exists s, heap w !! l = Some s /\ id s = k.

(** The subscriber calls of a trace, in order. *)
Definition called (t : list Event) : list (Listener * loc) :=
  omap (fun e => match e with ECall listener session => Some (listener, session) | _ => None end) t.

(** The warnings of a trace. *)
Definition warnings (t : list Event) : list (string * error) :=
  omap (fun e => match e with EWarn msg err => Some (msg, err) | _ => None end) t.

(** What one turn of either broadcast loop appends: nothing, a delivery, or
    a delivery and the warning for its failure. *)
Definition turn_events (v : Payload) (evs : list Event) : Prop :=
  evs = []
  \/ (exists session, evs = [ESend session v])
  \/ (exists session msg err, evs = [ESend session v; EWarn msg err]).

(** ** Config *)

Definition ImplicitHosting : M bool := gets (fun w => cfg_ImplicitHosting (config w)).

End Manager.

(** ** Concrete collaborators and managers, for evaluation *)

(** A capture manager that streams exactly between start and stop. *)
#[local] Instance bool_capture : CaptureManager bool := {|
  Streaming c := c;
  StartStream _ := true;
  StopStream _ := false
|}.

Definition mark_disconnected (s : SessionCtx) : SessionCtx :=
  mkSession (id s) (profile s) false.

(** Collaborators with fixed answers: the minter answers [uid], [Send] fails
    for the sessions in [failing], [Disconnect] answers [disc] and clears the
    flag of the session. *)
Definition fixed_collaborators (uid : error + string) (failing : list loc)
    (disc : option error) : @Collaborators bool string := {|
  utils_NewUID _ _ := uid;
  session_Send l _ _ :=
    if bool_decide (l ∈ failing) then Some (Errorf "send failed") else None;
  session_Disconnect l _ w := (disc, alter mark_disconnected l (heap w));
  range := map_to_list;
  range_perm m := reflexivity (map_to_list m)
|}.

#[local] Instance sample_collaborators : @Collaborators bool string :=
  fixed_collaborators (inr "uid") [0] (Some (Errorf "socket closed")).

Definition sample_config : Config := mkConfig "root" "abc" false.

(** The manager at start, and with its two members marked connected. *)
Definition world0 : @World bool string := New false sample_config.
Definition world1 : @World bool string :=
  set_heap (map (fun s => mkSession (id s) (profile s) true) (heap world0)) world0.

(** A manager whose administrator password is empty. *)
Definition world_open : @World bool string := New false (mkConfig "" "abc" false).

(** The manager with one listener registered for the connection events. *)
Definition world2 : @World bool string :=
  snd (OnDisconnected 7 (snd (OnConnected 7 world0))).

Definition request (query : list (string * list string)) (authorization : list string)
    (cookies : list Cookie) : Request :=
  mkRequest (list_to_map query) {[ "Authorization" := authorization ]} cookies.

(** Collaborators whose deliveries and disconnects never fail. *)
Definition reliable_collaborators : @Collaborators bool string :=
  fixed_collaborators (inr "uid") [] None.

(** The manager at start with the "admin" session as host; with only that
    session connected; with two listeners registered for "host". *)
Definition world_host : @World bool string := set_host (Some 0) world0.
Definition world_admin_connected : @World bool string :=
  set_heap (alter (fun s => mkSession (id s) (profile s) true) 0 (heap world0)) world0.
Definition world_listening : @World bool string :=
  snd (OnHost 5 (snd (OnHost 4 world0))).

(** The manager with a listener for the connection events, its two
    members connected and the capture manager streaming. *)
Definition world_streaming : @World bool string :=
  set_capture true (set_heap (heap world1) world2).

(** * Properties *)

Section Properties.

Context {Capture : Type} `{!CaptureManager Capture} {Payload : Type}.
Context `{!@Collaborators Capture Payload}.

Implicit Types (w : @World Capture Payload) (id : string) (session : loc).
Implicit Types (evs rest : list (@Event Payload)).

(** ** Token extraction *)

Lemma substring_all (s : string) : substring 0 (String.length s) s = s.
Proof. induction s as [|c s IH]; simpl; [reflexivity|]. by rewrite IH. Qed.

Lemma substring_prefix (s t : string) :
  substring 0 (String.length s) (s +:+ t) = s.
Proof.
  induction s as [|c s IH]; simpl.
  - by destruct t.
  - by rewrite IH.
Qed.

Lemma length_append (s t : string) :
  String.length (s +:+ t) = String.length s + String.length t.
Proof. induction s as [|c s IH]; simpl; [reflexivity|]. by rewrite IH. Qed.

Lemma substring_skip (s t : string) (n : nat) :
  substring (String.length s) n (s +:+ t) = substring 0 n t.
Proof. induction s as [|c s IH]; simpl; [reflexivity|]. exact IH. Qed.

Lemma bearer_form_slices (bearer : string) (sep : ascii) (token : string) :
  bearer_form bearer sep token ->
  bearer_test bearer = true
  /\ slice_from 7 bearer = token
  /\ slice 6 7 bearer = String sep "".
Proof.
  intros (scheme & -> & Hlen & Hup & Hne).
  destruct scheme as [|c1 [|c2 [|c3 [|c4 [|c5 [|c6 [|c7 rest]]]]]]]; try discriminate Hlen.
  cbv [String.append].
  assert (Hs : slice 0 6 (String c1 (String c2 (String c3 (String c4 (String c5
                 (String c6 (String sep token)))))))
               = String c1 (String c2 (String c3 (String c4 (String c5 (String c6 "")))))).
  { unfold slice. simpl. by destruct token. }
  split; [|split].
  - unfold bearer_test. rewrite Hs, Hup. simpl.
    destruct token; [done|]. reflexivity.
  - unfold slice_from. simpl. rewrite Nat.sub_0_r. apply substring_all.
  - unfold slice. simpl. by destruct token.
Qed.

Lemma bearer_test_form (bearer : string) :
  bearer_test bearer = true ->
  exists sep token, bearer_form bearer sep token.
Proof.
  unfold bearer_test. intros [Hlen Hup]%andb_true_iff.
  apply Nat.ltb_lt in Hlen. apply String.eqb_eq in Hup.
  destruct bearer as [|c1 [|c2 [|c3 [|c4 [|c5 [|c6 [|sep [|c token]]]]]]]];
    simpl in Hlen; try lia.
  exists sep, (String c token),
    (String c1 (String c2 (String c3 (String c4 (String c5 (String c6 "")))))).
  repeat split; [|done].
  change (strings_ToUpper "Bearer") with "BEARER". rewrite <- Hup.
  unfold slice. simpl. by destruct token.
Qed.

Lemma getToken_eq (r : Request) :
  getToken r =
    let token := Values_Get (URL_Query r) token_name in
    if negb (String.eqb token "") then token else
    let bearer := Values_Get (Header r) "Authorization" in
    if bearer_test bearer then slice_from 7 bearer else
    match Request_Cookie r token_name with
    | Some cookie => Cookie_Value cookie
    | None => ""
    end.
Proof. reflexivity. Qed.

(** Runs the monad's plumbing in the goal. *)
Ltac evaluate :=
  repeat progress
    (unfold bind, ret, panic, gets, modify, log, call, assert_SessionCtx,
       capture_StartStream, capture_StopStream, set_trace, set_capture;
     simpl).

(** ** Registry *)

Lemma Create_eq id (p : MemberProfile) w :
  Create id p w =
    (Ret (length (heap w)),
     set_members (<[id := length (heap w)]> (members w))
       (set_heap (heap w ++ [mkSession id p false]) w)).
Proof. reflexivity. Qed.

Lemma Create_store_closed id (p : MemberProfile) w :
  store_closed w -> store_closed (snd (Create id p w)).
Proof.
  intros Hw. rewrite Create_eq. unfold store_closed in *. simpl.
  rewrite length_app. simpl. apply map_Forall_insert_2; [lia|].
  eapply map_Forall_impl; [exact Hw|]. simpl. intros; lia.
Qed.

Lemma New_store_closed (c : Capture) (cfg : Config) :
  store_closed (New (Payload := Payload) c cfg).
Proof.
  unfold New, store_closed. simpl.
  apply map_Forall_insert_2; [lia|].
  apply map_Forall_insert_2; [lia|]. apply map_Forall_empty.
Qed.

(** C7: [Create] has no error path; [Get] right after it finds the session
    [Create] returned, a new object holding the id and the profile.  A second
    [Create] with the same id makes its own session the one [Get] finds, and
    the first session is then found under no id at all. *)
Theorem Create_then_Get id (p p' : MemberProfile) w :
  (exists session w1,
      Create id p w = (Ret session, w1)
      /\ Get id w1 = (Ret (Some session), w1)
      /\ heap w !! session = None
      /\ heap w1 !! session = Some (mkSession id p false))
  /\ (store_closed w ->
      exists first second w1 w2,
        Create id p w = (Ret first, w1)
        /\ Create id p' w1 = (Ret second, w2)
        /\ first <> second
        /\ Get id w2 = (Ret (Some second), w2)
        /\ heap w2 !! second = Some (mkSession id p' false)
        /\ forall k, fst (Get k w2) <> Ret (Some first)).
Proof.
  split.
  - eexists _, _. split; [apply Create_eq|]. unfold Get, gets. simpl.
    rewrite lookup_insert_eq. split; [reflexivity|]. split.
    + apply lookup_ge_None_2. lia.
    + rewrite lookup_app_r by lia. by rewrite Nat.sub_diag.
  - intros Hw. eexists _, _, _, _.
    split; [apply Create_eq|]. split; [apply Create_eq|]. simpl.
    rewrite length_app. simpl. split; [lia|].
    unfold Get, gets. simpl. rewrite lookup_insert_eq.
    split; [reflexivity|]. split.
    + rewrite lookup_app_r by (rewrite length_app; simpl; lia).
      rewrite length_app. simpl. by rewrite Nat.sub_diag.
    + intros k Hk. injection Hk as Hk.
      destruct (decide (id = k)) as [->|Hne].
      * rewrite lookup_insert_eq in Hk. injection Hk. lia.
      * rewrite !lookup_insert_ne in Hk by done.
        apply Hw in Hk. simpl in Hk. lia.
Qed.

(** C8: [Delete] of an id the registry does not hold answers the
    "Member not found." error and leaves the whole world as it was. *)
Theorem Delete_unknown id w :
  members w !! id = None ->
  Delete id w = (Ret (Some MemberNotFound), w).
Proof. intros Hid. unfold Delete, bind, gets. simpl. by rewrite Hid. Qed.

(** C3: when [Delete] finds the session it removes the entry first; only a
    session that is still connected is then disconnected, with reason
    "member deleted", in a world that no longer holds the entry, and the
    answer of that call is the answer of [Delete].  Whatever the answer,
    [Get] no longer finds the id. *)
Theorem Delete_found id session w :
  members w !! id = Some session ->
  let removed := set_members (delete id (members w)) w in
  members removed !! id = None
  /\ (connected (deref session w) = true ->
     Delete id w = Disconnect session "member deleted" removed
     /\ fst (Delete id w) = Ret (fst (session_Disconnect session "member deleted" removed))
     /\ trace (snd (Delete id w)) = trace w ++ [EDisconnect session "member deleted"])
  /\ (connected (deref session w) = false -> Delete id w = (Ret None, removed))
  /\ members (snd (Delete id w)) = delete id (members w)
  /\ fst (Get id (snd (Delete id w))) = Ret None.
Proof.
  intros Hid removed.
  assert (Hdel : Delete id w =
    if connected (deref session w)
    then Disconnect session "member deleted" removed else (Ret None, removed)).
  { unfold Delete, bind, gets, modify, IsConnected, gets. simpl. rewrite Hid. simpl.
    change (deref session (set_members (delete id (members w)) w))
      with (deref session w).
    by destruct (connected (deref session w)). }
  assert (Hmem : members (snd (Delete id w)) = delete id (members w)).
  { rewrite Hdel. destruct (connected (deref session w)); [|reflexivity].
    unfold Disconnect. by destruct (session_Disconnect _ _ _). }
  split; [apply lookup_delete_eq|]. split; [|split; [|split]].
  - intros Hc. rewrite Hdel, Hc. split; [reflexivity|].
    unfold Disconnect. by destruct (session_Disconnect _ _ _).
  - intros Hc. by rewrite Hdel, Hc.
  - exact Hmem.
  - unfold Get, gets. simpl. rewrite Hmem. by rewrite lookup_delete_eq.
Qed.

(** ** Events and host *)

Lemma set_trace_id w : set_trace (trace w ++ []) w = w.
Proof. destruct w. unfold set_trace. simpl. by rewrite app_nil_r. Qed.

Lemma emits_app (t u : list (@Event Payload)) : emits (t ++ u) = emits t ++ emits u.
Proof. unfold emits. apply omap_app. Qed.

Lemma quiet_refl w : quiet w w.
Proof. repeat split. exists []. by rewrite app_nil_r. Qed.

Lemma quiet_trans w1 w2 w3 : quiet w1 w2 -> quiet w2 w3 -> quiet w1 w3.
Proof.
  intros (Hh & Hm & Hp & He & Hc & evs & Ht & Hq) (Hh' & Hm' & Hp' & He' & Hc' & evs' & Ht' & Hq').
  repeat split; try congruence.
  exists (evs ++ evs'). split.
  - rewrite Ht', Ht. by rewrite app_assoc.
  - rewrite emits_app, Hq, Hq'. reflexivity.
Qed.

Lemma quiet_log (e : @Event Payload) w :
  emits [e] = [] -> quiet w (set_trace (trace w ++ [e]) w).
Proof. intros He. repeat split. by exists [e]. Qed.

Lemma quiet_capture (c : Capture) w : quiet w (set_capture c w).
Proof. repeat split. exists []. simpl. by rewrite app_nil_r. Qed.

Lemma run_quiet (f : Closure) (payload : option loc) w :
  quiet w (snd (run f payload w)).
Proof.
  assert (Hcall : forall listener w0,
    quiet w0 (snd (bind (assert_SessionCtx payload) (fun s => call listener s) w0))).
  { intros listener w0. destruct payload as [s|]; simpl.
    - by apply quiet_log.
    - apply quiet_refl. }
  destruct f as [l|l|l|l|l|l]; try apply Hcall.
  - unfold run, bind at 1 2, capture_Streaming, gets.
    destruct (Streaming (capture w)); simpl.
    + apply Hcall.
    + eapply quiet_trans; [|apply Hcall].
      apply (quiet_trans _ (set_capture (StartStream (capture w)) w));
        [apply quiet_capture|].
      by apply (quiet_log EStartStream (set_capture (StartStream (capture w)) w)).
  - unfold run, bind at 1 2 3, capture_Streaming, HasConnectedMembers, gets.
    destruct (Streaming (capture w)); simpl; [|apply Hcall].
    destruct (any_connected w); simpl; [apply Hcall|].
    eapply quiet_trans; [|apply Hcall].
    apply (quiet_trans _ (set_capture (StopStream (capture w)) w));
      [apply quiet_capture|].
    by apply (quiet_log EStopStream (set_capture (StopStream (capture w)) w)).
Qed.

Lemma for_each_run_quiet (fs : list Closure) (payload : option loc) w :
  quiet w (snd (for_each fs (fun f => run f payload) w)).
Proof.
  revert w. induction fs as [|f fs IH]; intros w; simpl.
  - apply quiet_refl.
  - unfold bind. pose proof (run_quiet f payload w) as Hq.
    destruct (run f payload w) as [[[]|msg] w1]; simpl in *.
    + eapply quiet_trans; [exact Hq|apply IH].
    + exact Hq.
Qed.

Lemma Emit_eq (name : string) (payload : option loc) w :
  Emit name payload w =
    for_each (listeners_of name w) (fun f => run f payload)
      (set_trace (trace w ++ [EEmit name payload]) w).
Proof. reflexivity. Qed.

Lemma Emit_trace (name : string) (payload : option loc) w :
  let w' := snd (Emit name payload w) in
  host w' = host w /\ members w' = members w /\ heap w' = heap w
  /\ exists rest, trace w' = trace w ++ EEmit name payload :: rest /\ emits rest = [].
Proof.
  intros w'. subst w'. rewrite Emit_eq.
  destruct (for_each_run_quiet (listeners_of name w) payload
              (set_trace (trace w ++ [EEmit name payload]) w))
    as (Hh & Hm & Hp & _ & _ & evs & Ht & Hq).
  simpl in Hh, Hm, Hp, Ht.
  repeat split; try assumption.
  exists evs. split; [|exact Hq]. rewrite Ht. by rewrite <- app_assoc.
Qed.

(** C5: [HasHost] answers true exactly when [GetHost] answers a session
    (both leave the world as it is); [SetHost] makes its argument the host,
    whatever the host was, and raises one "host" event carrying it;
    [ClearHost] leaves no host and raises one "host_cleared" event carrying
    the host there was, nil when there was none.  The listeners add no
    further event to the trace. *)
Theorem host_arbitration w :
  (fst (HasHost w) = Ret true <-> fst (GetHost w) <> Ret None)
  /\ snd (HasHost w) = w /\ snd (GetHost w) = w
  /\ (forall h : option loc,
        let w' := snd (SetHost h w) in
        host w' = h
        /\ exists rest, trace w' = trace w ++ EEmit "host" h :: rest
                        /\ emits (EEmit "host" h :: rest) = [("host", h)])
  /\ (let w' := snd (ClearHost w) in
      host w' = None
      /\ exists rest, trace w' = trace w ++ EEmit "host_cleared" (host w) :: rest
                      /\ emits (EEmit "host_cleared" (host w) :: rest)
                         = [("host_cleared", host w)]).
Proof.
  split; [|split; [reflexivity|split; [reflexivity|split]]].
  - unfold HasHost, GetHost, gets. simpl. destruct (host w) as [l|]; simpl.
    + split; [congruence|reflexivity].
    + split; [intros [=]|congruence].
  - intros h w'.
    destruct (Emit_trace "host" h (set_host h w)) as (Hh & _ & _ & rest & Ht & Hq).
    split; [exact Hh|]. exists rest. split; [exact Ht|].
    change (emits (EEmit "host" h :: rest)) with (("host", h) :: emits rest).
    by rewrite Hq.
  - intros w'.
    destruct (Emit_trace "host_cleared" (host w) (set_host None w))
      as (Hh & _ & _ & rest & Ht & Hq).
    split; [exact Hh|]. exists rest. split; [exact Ht|].
    change (emits (EEmit "host_cleared" (host w) :: rest))
      with (("host_cleared", host w) :: emits rest).
    by rewrite Hq.
Qed.

(** *** The nil payload *)

Lemma run_nil (f : Closure) w : fst (run f None w) = Panic nil_assertion.
Proof.
  destruct f as [l|l|l|l|l|l]; try reflexivity.
  - unfold run, bind at 1 2, capture_Streaming, gets.
    by destruct (Streaming (capture w)).
  - unfold run, bind at 1 2 3, capture_Streaming, HasConnectedMembers, gets.
    destruct (Streaming (capture w)); simpl; [|reflexivity].
    by destruct (any_connected w).
Qed.

Lemma for_each_run_nil (fs : list Closure) w :
  fs <> [] -> fst (for_each fs (fun f => run f None) w) = Panic nil_assertion.
Proof.
  destruct fs as [|f fs]; [done|]. intros _. simpl. unfold bind.
  pose proof (run_nil f w) as Hf.
  destruct (run f None w) as [[[]|msg] w1]; simpl in *; congruence.
Qed.

Lemma listeners_of_On (name : string) (f : Closure) w :
  listeners_of name (snd (On name f w)) = listeners_of name w ++ [f].
Proof. unfold On, modify, listeners_of. simpl. by rewrite lookup_insert_eq. Qed.

(** C10: the functions registered by [OnHost] and [OnHostCleared] assert the
    payload to be a [*SessionCtx] without a check.  As soon as one listener
    is registered, [ClearHost] with no host set, and [SetHost] of nil, raise
    their event with the nil payload and panic in the assertion; with no
    listener registered they return. *)
Theorem nil_host_payload_panics (listener : Listener) w :
  (host w = None ->
     listeners_of "host_cleared" w <> [] ->
     fst (ClearHost w) = Panic nil_assertion
     /\ exists rest, trace (snd (ClearHost w))
                     = trace w ++ EEmit "host_cleared" None :: rest)
  /\ (listeners_of "host" w <> [] ->
      fst (SetHost None w) = Panic nil_assertion
      /\ exists rest, trace (snd (SetHost None w)) = trace w ++ EEmit "host" None :: rest)
  /\ (host w = None ->
      fst (ClearHost (snd (OnHostCleared listener w))) = Panic nil_assertion)
  /\ fst (SetHost None (snd (OnHost listener w))) = Panic nil_assertion
  /\ (listeners_of "host_cleared" w = [] -> fst (ClearHost w) = Ret tt)
  /\ (listeners_of "host" w = [] -> fst (SetHost None w) = Ret tt).
Proof.
  assert (Hclear : forall w0, host w0 = None -> listeners_of "host_cleared" w0 <> [] ->
            fst (ClearHost w0) = Panic nil_assertion).
  { intros w0 Hh Hl.
    change (ClearHost w0) with (Emit "host_cleared" (host w0) (set_host None w0)).
    rewrite Hh, Emit_eq. by apply for_each_run_nil. }
  assert (Hset : forall w0, listeners_of "host" w0 <> [] ->
            fst (SetHost None w0) = Panic nil_assertion).
  { intros w0 Hl.
    change (SetHost None w0) with (Emit "host" None (set_host None w0)).
    rewrite Emit_eq. by apply for_each_run_nil. }
  split; [intros Hh Hl; split|split; [intros Hl; split|split; [|split; [|split]]]].
  - by apply Hclear.
  - change (ClearHost w) with (Emit "host_cleared" (host w) (set_host None w)).
    destruct (Emit_trace "host_cleared" (host w) (set_host None w))
      as (_ & _ & _ & rest & Ht & _).
    exists rest. rewrite Ht. by rewrite Hh.
  - by apply Hset.
  - destruct (Emit_trace "host" None (set_host None w)) as (_ & _ & _ & rest & Ht & _).
    by exists rest.
  - intros Hh. apply Hclear; [exact Hh|].
    unfold OnHostCleared. rewrite listeners_of_On. by destruct (listeners_of _ w).
  - apply Hset. unfold OnHost. rewrite listeners_of_On. by destruct (listeners_of _ w).
  - intros Hl.
    change (ClearHost w) with (Emit "host_cleared" (host w) (set_host None w)).
    rewrite Emit_eq.
    change (listeners_of "host_cleared" (set_host None w))
      with (listeners_of "host_cleared" w).
    by rewrite Hl.
  - intros Hl.
    change (SetHost None w) with (Emit "host" None (set_host None w)).
    rewrite Emit_eq.
    change (listeners_of "host" (set_host None w)) with (listeners_of "host" w).
    by rewrite Hl.
Qed.

(** *** Streaming follows the connections *)

Lemma run_OnConnected (listener : Listener) session w :
  run (OnConnected_func listener) (Some session) w =
    if Streaming (capture w)
    then (Ret tt, set_trace (trace w ++ [ECall listener session]) w)
    else (Ret tt, set_trace (trace w ++ [EStartStream; ECall listener session])
                    (set_capture (StartStream (capture w)) w)).
Proof.
  unfold run, bind at 1 2, capture_Streaming, gets.
  destruct (Streaming (capture w)); simpl; [reflexivity|].
  evaluate. by rewrite <- app_assoc.
Qed.

Lemma run_OnDisconnected (listener : Listener) session w :
  run (OnDisconnected_func listener) (Some session) w =
    if Streaming (capture w) && negb (any_connected w)
    then (Ret tt, set_trace (trace w ++ [EStopStream; ECall listener session])
                    (set_capture (StopStream (capture w)) w))
    else (Ret tt, set_trace (trace w ++ [ECall listener session]) w).
Proof.
  unfold run, bind at 1 2 3, capture_Streaming, HasConnectedMembers, gets.
  destruct (Streaming (capture w)); simpl; [|reflexivity].
  destruct (any_connected w); simpl; [reflexivity|].
  evaluate. by rewrite <- app_assoc.
Qed.

Lemma for_each_OnConnected_streaming (listeners : list Listener) session w :
  Streaming (capture w) = true ->
  for_each (map OnConnected_func listeners) (fun f => run f (Some session)) w
  = (Ret tt, set_trace (trace w ++ calls session listeners) w).
Proof.
  revert w. induction listeners as [|l ls IH]; intros w Hs; cbn [map for_each].
  - unfold calls. simpl. by rewrite set_trace_id.
  - unfold bind at 1. rewrite run_OnConnected, Hs. rewrite IH by exact Hs.
    unfold set_trace. simpl. by rewrite <- app_assoc.
Qed.

Lemma for_each_OnDisconnected_idle (listeners : list Listener) session w :
  Streaming (capture w) = false ->
  for_each (map OnDisconnected_func listeners) (fun f => run f (Some session)) w
  = (Ret tt, set_trace (trace w ++ calls session listeners) w).
Proof.
  revert w. induction listeners as [|l ls IH]; intros w Hs; cbn [map for_each].
  - unfold calls. simpl. by rewrite set_trace_id.
  - unfold bind at 1. rewrite run_OnDisconnected, Hs. cbn [andb].
    rewrite IH by exact Hs.
    unfold set_trace. simpl. by rewrite <- app_assoc.
Qed.

Lemma Emit_connected_streaming (listeners : list Listener) session w :
  listeners_of "connected" w = map OnConnected_func listeners ->
  Streaming (capture w) = true ->
  Emit "connected" (Some session) w
  = (Ret tt, set_trace (trace w ++ EEmit "connected" (Some session)
                                  :: calls session listeners) w).
Proof.
  intros Hl Hs. rewrite Emit_eq, Hl.
  rewrite for_each_OnConnected_streaming by exact Hs.
  unfold set_trace. simpl. by rewrite <- app_assoc.
Qed.

Lemma Emit_connected_idle (listeners : list Listener) session w :
  (forall c : Capture, Streaming (StartStream c) = true) ->
  listeners <> [] ->
  listeners_of "connected" w = map OnConnected_func listeners ->
  Streaming (capture w) = false ->
  Emit "connected" (Some session) w
  = (Ret tt, set_trace (trace w ++ EEmit "connected" (Some session) :: EStartStream
                                  :: calls session listeners)
               (set_capture (StartStream (capture w)) w)).
Proof.
  intros Hstart Hne Hl Hs. rewrite Emit_eq, Hl.
  destruct listeners as [|l ls]; [done|]. cbn [map for_each]. unfold bind at 1.
  rewrite run_OnConnected. cbn [capture set_trace]. rewrite Hs.
  rewrite for_each_OnConnected_streaming by apply Hstart.
  unfold set_trace, set_capture. simpl. by rewrite <- !app_assoc.
Qed.

(** C6: with at least one subscriber registered through [OnConnected]
    (resp. [OnDisconnected]) and a capture manager that reports streaming
    after a start and not after a stop: a "connected" event raised while
    the capture manager is not streaming calls [StartStream] once, before the
    first subscriber is called; raised while it is streaming it calls no
    [StartStream], as does a second "connected" event right after the first;
    a "disconnected" event raised while streaming, with no member
    connected, calls [StopStream] once, before the first subscriber. *)
Theorem streaming_follows_connections (listeners : list Listener) session session' w :
  (forall c : Capture, Streaming (StartStream c) = true) ->
  (forall c : Capture, Streaming (StopStream c) = false) ->
  listeners <> [] ->
  (listeners_of "connected" w = map OnConnected_func listeners ->
     (Streaming (capture w) = false ->
        Emit "connected" (Some session) w
        = (Ret tt, set_trace (trace w ++ EEmit "connected" (Some session) :: EStartStream
                                        :: calls session listeners)
                     (set_capture (StartStream (capture w)) w))
        /\ trace (snd (bind (Emit "connected" (Some session))
                         (fun _ => Emit "connected" (Some session')) w))
           = trace w ++ (EEmit "connected" (Some session) :: EStartStream
                           :: calls session listeners)
                     ++ (EEmit "connected" (Some session') :: calls session' listeners))
     /\ (Streaming (capture w) = true ->
         Emit "connected" (Some session) w
         = (Ret tt, set_trace (trace w ++ EEmit "connected" (Some session)
                                         :: calls session listeners) w)))
  /\ (listeners_of "disconnected" w = map OnDisconnected_func listeners ->
      Streaming (capture w) = true ->
      fst (HasConnectedMembers w) = Ret false ->
      Emit "disconnected" (Some session) w
      = (Ret tt, set_trace (trace w ++ EEmit "disconnected" (Some session) :: EStopStream
                                      :: calls session listeners)
                   (set_capture (StopStream (capture w)) w))).
Proof.
  intros Hstart Hstop Hne. split; [intros Hl; split|].
  - intros Hs. split; [by apply Emit_connected_idle|].
    unfold bind. rewrite (Emit_connected_idle listeners) by assumption.
    rewrite (Emit_connected_streaming listeners) by (try exact Hl; apply Hstart).
    simpl. by rewrite <- app_assoc.
  - intros Hs. by apply Emit_connected_streaming.
  - intros Hl Hs Hnone. rewrite Emit_eq, Hl.
    destruct listeners as [|l ls]; [done|]. cbn [map for_each]. unfold bind at 1.
    rewrite run_OnDisconnected. cbn [capture members set_trace]. rewrite Hs.
    unfold HasConnectedMembers, gets in Hnone. simpl in Hnone.
    injection Hnone as Hnone.
    change (any_connected (set_trace (trace w ++ [EEmit "disconnected" (Some session)]) w))
      with (any_connected w).
    rewrite Hnone. cbn [andb negb].
    rewrite for_each_OnDisconnected_idle by apply Hstop.
    unfold set_trace, set_capture. simpl. by rewrite <- !app_assoc.
Qed.

(** ** Broadcast *)

Lemma sends_app (t u : list (@Event Payload)) : sends (t ++ u) = sends t ++ sends u.
Proof. unfold sends. apply omap_app. Qed.

Lemma set_trace_app (t u : list (@Event Payload)) w :
  set_trace (trace (set_trace (trace w ++ t) w) ++ u) (set_trace (trace w ++ t) w)
  = set_trace (trace w ++ t ++ u) w.
Proof. unfold set_trace. simpl. by rewrite <- app_assoc. Qed.

(** A loop whose body delivers [v] to the entries [P] selects, and otherwise
    only logs, delivers to the selected entries in the order of the loop. *)
Lemma for_each_fan_out (v : Payload) (P : World -> string * loc -> bool)
    (body : string * loc -> M unit) :
  (forall t w entry, P (set_trace t w) entry = P w entry) ->
  (forall entry w, exists evs,
      body entry w = (Ret tt, set_trace (trace w ++ evs) w)
      /\ sends evs = (if P w entry then [(snd entry, v)] else [])
      /\ Forall (fan_out_event v) evs) ->
  forall entries w, exists evs,
    for_each entries body w = (Ret tt, set_trace (trace w ++ evs) w)
    /\ sends evs = map (fun entry => (snd entry, v))
                     (filter (fun entry => P w entry = true) entries)
    /\ Forall (fan_out_event v) evs.
Proof.
  intros HP Hbody entries. induction entries as [|entry entries IH]; intros w.
  - exists []. simpl. rewrite set_trace_id. by repeat split.
  - destruct (Hbody entry w) as (evs1 & Hrun1 & Hsends1 & Hok1).
    destruct (IH (set_trace (trace w ++ evs1) w)) as (evs2 & Hrun2 & Hsends2 & Hok2).
    exists (evs1 ++ evs2). split; [|split].
    + cbn [for_each]. unfold bind. rewrite Hrun1, Hrun2. by rewrite set_trace_app.
    + rewrite sends_app, Hsends1, Hsends2.
      assert (Hfilter : filter (fun e => P (set_trace (trace w ++ evs1) w) e = true) entries
                        = filter (fun e => P w e = true) entries).
      { apply list_filter_iff. intros e. by rewrite HP. }
      rewrite Hfilter. destruct (P w entry) eqn:HPe.
      * by rewrite filter_cons_True.
      * rewrite filter_cons_False; [done|congruence].
    + by apply Forall_app.
Qed.

Lemma Broadcast_body (v : Payload) (exclude : option (list string))
    (entry : string * loc) w :
  exists evs,
    (let '(id, session) := entry in
     bind (IsConnected session) (fun c =>
       if negb c then ret tt else
       if excluded id exclude then ret tt else
       bind (Send session v) (fun err =>
         match err with
         | Some e => log (EWarn "broadcasting event has failed" e)
         | None => ret tt
         end))) w
    = (Ret tt, set_trace (trace w ++ evs) w)
    /\ sends evs = (if recipient false exclude w entry then [(snd entry, v)] else [])
    /\ Forall (fan_out_event v) evs.
Proof.
  destruct entry as [id session]. unfold recipient, IsConnected, Send. evaluate.
  destruct (connected (deref session w)); simpl.
  - destruct (excluded id exclude); simpl.
    + exists []. rewrite app_nil_r. by destruct w.
    + destruct (session_Send session v w) as [e|]; evaluate.
      * eexists [ESend session v; EWarn _ e]. rewrite <- app_assoc.
        repeat split. by repeat constructor.
      * exists [ESend session v]. repeat split. by repeat constructor.
  - exists []. rewrite app_nil_r. by destruct w.
Qed.

Lemma AdminBroadcast_body (v : Payload) (exclude : option (list string))
    (entry : string * loc) w :
  exists evs,
    (let '(id, session) := entry in
     bind (IsConnected session) (fun c =>
     bind (Session_IsAdmin session) (fun a =>
       if negb c || negb a then ret tt else
       if excluded id exclude then ret tt else
       bind (Send session v) (fun err =>
         match err with
         | Some e => log (EWarn "broadcasting admin event has failed" e)
         | None => ret tt
         end)))) w
    = (Ret tt, set_trace (trace w ++ evs) w)
    /\ sends evs = (if recipient true exclude w entry then [(snd entry, v)] else [])
    /\ Forall (fan_out_event v) evs.
Proof.
  destruct entry as [id session].
  unfold recipient, IsConnected, Session_IsAdmin, Send. evaluate.
  destruct (connected (deref session w)); simpl.
  - destruct (IsAdmin (profile (deref session w))); simpl.
    + destruct (excluded id exclude); simpl.
      * exists []. rewrite app_nil_r. by destruct w.
      * destruct (session_Send session v w) as [e|]; evaluate.
        -- eexists [ESend session v; EWarn _ e]. rewrite <- app_assoc.
           repeat split. by repeat constructor.
        -- exists [ESend session v]. repeat split. by repeat constructor.
    + exists []. rewrite app_nil_r. by destruct w.
  - exists []. rewrite app_nil_r. by destruct w.
Qed.

Lemma recipient_spec (admins_only : bool) (exclude : option (list string))
    (v : Payload) session w (sent : list (loc * Payload)) :
  sent ≡ₚ map (fun entry => (snd entry, v))
            (filter (fun entry => recipient admins_only exclude w entry = true)
               (map_to_list (members w))) ->
  (session, v) ∈ sent <->
  exists id, members w !! id = Some session
             /\ connected (deref session w) = true
             /\ (admins_only = true -> IsAdmin (profile (deref session w)) = true)
             /\ forall ids, exclude = Some ids -> id ∉ ids.
Proof.
  intros ->. rewrite list_elem_of_fmap. split.
  - intros ([id l] & [= <-] & Hin). apply list_elem_of_filter in Hin as [Hr Hin].
    apply elem_of_map_to_list in Hin. exists id. split; [exact Hin|].
    unfold recipient in Hr. simpl in Hr.
    apply andb_true_iff in Hr as [Hr Hex]. apply andb_true_iff in Hr as [Hc Ha].
    split; [exact Hc|]. split.
    + intros ->. exact Ha.
    + intros ids ->. simpl in Hex. unfold ArrayIn in Hex.
      apply negb_true_iff, bool_decide_eq_false in Hex. exact Hex.
  - intros (id & Hin & Hc & Ha & Hex). exists (id, session). split; [reflexivity|].
    apply list_elem_of_filter. split; [|by apply elem_of_map_to_list].
    unfold recipient. simpl. rewrite Hc. simpl. apply andb_true_iff. split.
    + destruct admins_only; [by apply Ha|reflexivity].
    + destruct exclude as [ids|]; [|reflexivity]. simpl. unfold ArrayIn.
      apply negb_true_iff, bool_decide_eq_false. by apply Hex.
Qed.

(** C4: [Broadcast] always returns, changes nothing but the trace, and adds
    to it only deliveries of the payload and warnings.  It attempts one
    delivery per registered entry whose session is connected and whose id is
    not in the exclusion collection, whether the session is an admin or not
    and whatever the earlier deliveries answered; [AdminBroadcast] does the
    same for the entries whose session is moreover an admin.  With no
    exclusion collection no id is excluded. *)
Theorem broadcast_recipients (v : Payload) (exclude : option (list string)) w :
  (exists evs,
     Broadcast v exclude w = (Ret tt, set_trace (trace w ++ evs) w)
     /\ Forall (fan_out_event v) evs
     /\ sends evs ≡ₚ map (fun entry => (snd entry, v))
                      (filter (fun entry => recipient false exclude w entry = true)
                         (map_to_list (members w)))
     /\ forall session,
          (session, v) ∈ sends evs <->
          exists id, members w !! id = Some session
                     /\ connected (deref session w) = true
                     /\ forall ids, exclude = Some ids -> id ∉ ids)
  /\ (exists evs,
        AdminBroadcast v exclude w = (Ret tt, set_trace (trace w ++ evs) w)
        /\ Forall (fan_out_event v) evs
        /\ sends evs ≡ₚ map (fun entry => (snd entry, v))
                         (filter (fun entry => recipient true exclude w entry = true)
                            (map_to_list (members w)))
        /\ forall session,
             (session, v) ∈ sends evs <->
             exists id, members w !! id = Some session
                        /\ connected (deref session w) = true
                        /\ IsAdmin (profile (deref session w)) = true
                        /\ forall ids, exclude = Some ids -> id ∉ ids)
  /\ (forall id, excluded id None = false)
  /\ (forall id ids, excluded id (Some ids) = true <-> id ∈ ids).
Proof.
  split; [|split; [|split]].
  - destruct (for_each_fan_out v (recipient false exclude) _
                (fun _ _ _ => eq_refl) (Broadcast_body v exclude)
                (range (members w)) w) as (evs & Hrun & Hsends & Hok).
    exists evs. split; [exact Hrun|]. split; [exact Hok|].
    assert (Hperm : sends evs ≡ₚ map (fun entry => (snd entry, v))
              (filter (fun entry => recipient false exclude w entry = true)
                 (map_to_list (members w)))).
    { rewrite Hsends. by rewrite range_perm. }
    split; [exact Hperm|]. intros session.
    rewrite (recipient_spec false exclude v session w _ Hperm).
    split; intros (id & Hin & Hc & Hrest); exists id; repeat split; try tauto.
    done.
  - destruct (for_each_fan_out v (recipient true exclude) _
                (fun _ _ _ => eq_refl) (AdminBroadcast_body v exclude)
                (range (members w)) w) as (evs & Hrun & Hsends & Hok).
    exists evs. split; [exact Hrun|]. split; [exact Hok|].
    assert (Hperm : sends evs ≡ₚ map (fun entry => (snd entry, v))
              (filter (fun entry => recipient true exclude w entry = true)
                 (map_to_list (members w)))).
    { rewrite Hsends. by rewrite range_perm. }
    split; [exact Hperm|]. intros session.
    rewrite (recipient_spec true exclude v session w _ Hperm).
    split; intros (id & Hin & Hc & Ha & Hex); exists id; repeat split; auto.
  - reflexivity.
  - intros id ids. simpl. unfold ArrayIn. apply bool_decide_eq_true.
Qed.

(** ** Authentication *)

Lemma Authenticate_eq (r : Request) w :
  Authenticate r w =
    let token := getToken r in
    if String.eqb token "" then (Ret (inl CredentialMissing), w) else
    let isAdmin := String.eqb token (AdminPassword (config w)) in
    let isUser := String.eqb token (Password (config w)) in
    if negb isAdmin && negb isUser then (Ret (inl CredentialInvalid), w) else
    match utils_NewUID 32 w with
    | inl err => (Ret (inl err), set_trace (trace w ++ [ENewUID 32]) w)
    | inr id => (Ret (inr (length (heap w))), registered id isAdmin w)
    end.
Proof.
  unfold Authenticate. cbv zeta. destruct (String.eqb (getToken r) ""); [reflexivity|].
  unfold bind at 1, gets.
  destruct (negb _ && negb _); [reflexivity|].
  unfold bind at 1, NewUID. destruct (utils_NewUID 32 w) as [err|id]; reflexivity.
Qed.

Lemma registered_session (id : string) (isAdmin : bool) w :
  heap w !! length (heap w) = None
  /\ heap (registered id isAdmin w) !! length (heap w)
     = Some (mkSession id (mkProfile "" "" isAdmin) false)
  /\ fst (Get id (registered id isAdmin w)) = Ret (Some (length (heap w)))
  /\ IsAdmin (profile (deref (length (heap w)) (registered id isAdmin w))) = isAdmin.
Proof.
  assert (Hl : heap (registered id isAdmin w) !! length (heap w)
               = Some (mkSession id (mkProfile "" "" isAdmin) false)).
  { simpl. rewrite lookup_app_r by lia. by rewrite Nat.sub_diag. }
  split; [apply lookup_ge_None_2; lia|]. split; [exact Hl|]. split.
  - unfold Get, gets. simpl. by rewrite lookup_insert_eq.
  - unfold deref, loc. by rewrite Hl.
Qed.

(** C1, amended: for a request whose extracted token is not empty.  If the
    token is the administrator password (the user password may be the same)
    and the minter answers an id, [Authenticate] returns a session it has
    just created and registered under that id, with [IsAdmin] true; if the
    token is the user password and not the administrator password, likewise
    with [IsAdmin] false; if it is neither, [Authenticate] answers the
    "invalid password" error and the world is as before; if the token
    is accepted and the minter fails, its error is the answer and neither the
    registry nor the store has changed. *)
Theorem Authenticate_credentials (r : Request) w :
  getToken r <> "" ->
  (forall isAdmin id,
      (isAdmin = true /\ getToken r = AdminPassword (config w)
       \/ isAdmin = false /\ getToken r = Password (config w)
                          /\ getToken r <> AdminPassword (config w)) ->
      utils_NewUID 32 w = inr id ->
      exists session w',
        Authenticate r w = (Ret (inr session), w')
        /\ heap w !! session = None
        /\ heap w' !! session = Some (mkSession id (mkProfile "" "" isAdmin) false)
        /\ members w' = <[id := session]> (members w)
        /\ fst (Get id w') = Ret (Some session)
        /\ IsAdmin (profile (deref session w')) = isAdmin)
  /\ (getToken r <> AdminPassword (config w) ->
      getToken r <> Password (config w) ->
      Authenticate r w = (Ret (inl CredentialInvalid), w))
  /\ (forall err,
        getToken r = AdminPassword (config w) \/ getToken r = Password (config w) ->
        utils_NewUID 32 w = inl err ->
        exists w',
          Authenticate r w = (Ret (inl err), w')
          /\ members w' = members w /\ heap w' = heap w).
Proof.
  intros Hne. apply String.eqb_neq in Hne.
  split; [|split].
  - intros isAdmin id Hcase Huid. exists (length (heap w)), (registered id isAdmin w).
    destruct (registered_session id isAdmin w) as (Hfresh & Hnew & Hget & Hadm).
    split; [|by repeat split].
    rewrite Authenticate_eq. cbv zeta. rewrite Hne, Huid.
    destruct Hcase as [[-> Ha]|(-> & Hu & Ha)].
    + apply String.eqb_eq in Ha. rewrite Ha. reflexivity.
    + apply String.eqb_eq in Hu. apply String.eqb_neq in Ha. rewrite Hu, Ha. reflexivity.
  - intros Ha Hu. apply String.eqb_neq in Ha, Hu.
    rewrite Authenticate_eq. cbv zeta. by rewrite Hne, Ha, Hu.
  - intros err Hcase Huid. exists (set_trace (trace w ++ [ENewUID 32]) w).
    split; [|by split].
    rewrite Authenticate_eq. cbv zeta. rewrite Hne, Huid.
    destruct Hcase as [Ha|Hu].
    + apply String.eqb_eq in Ha. by rewrite Ha.
    + apply String.eqb_eq in Hu. rewrite Hu. by rewrite andb_false_r.
Qed.

(** Where [getToken] and the specified extraction agree: on every request
    whose Authorization header, when it passes the scheme test, has a space
    as its 7th character. *)
Lemma getToken_spec_agreement (r : Request) :
  (forall sep token,
      bearer_form (Values_Get (Header r) "Authorization") sep token -> sep = " "%char) ->
  getToken r = getToken_spec r.
Proof.
  intros Hsp. rewrite getToken_eq. unfold getToken_spec. cbv zeta.
  destruct (negb (String.eqb (Values_Get (URL_Query r) token_name) "")); [reflexivity|].
  change (strings_ToUpper "Bearer") with "BEARER".
  fold (bearer_test (Values_Get (Header r) "Authorization")).
  destruct (bearer_test (Values_Get (Header r) "Authorization")) eqn:Ht; [|reflexivity].
  destruct (bearer_test_form _ Ht) as (sep & token & Hf).
  pose proof (Hsp _ _ Hf) as ->.
  apply bearer_form_slices in Hf as (_ & _ & ->). reflexivity.
Qed.

(** The header "Bearer abc" alone, with user password "abc" that is not the
    administrator password, authenticates as a non-admin. *)
Lemma Bearer_abc_authenticates (r : Request) (id : string) w :
  Values_Get (URL_Query r) token_name = "" ->
  Values_Get (Header r) "Authorization" = "Bearer abc" ->
  Password (config w) = "abc" -> AdminPassword (config w) <> "abc" ->
  utils_NewUID 32 w = inr id ->
  exists session w',
    Authenticate r w = (Ret (inr session), w')
    /\ IsAdmin (profile (deref session w')) = false.
Proof.
  intros Hq Hb Hu Ha Huid.
  assert (Hget : getToken r = "abc").
  { rewrite getToken_eq. cbv zeta. by rewrite Hq, Hb. }
  exists (length (heap w)), (registered id false w).
  destruct (registered_session id false w) as (_ & _ & _ & Hadm).
  split; [|exact Hadm].
  rewrite Authenticate_eq. cbv zeta. rewrite Hget, Hu, Huid.
  assert (Hneq : String.eqb "abc" (AdminPassword (config w)) = false).
  { apply String.eqb_neq. congruence. }
  by rewrite Hneq.
Qed.

(** C9: the extracted token is empty exactly when the [password] query
    parameter is empty or missing, the Authorization header is not a
    six-character "bearer" scheme, a separator and at least one more
    character, and the [password] cookie is missing or empty.  Then
    [Authenticate] answers "no password provided" and changes nothing,
    whatever the configured passwords, the empty one included.  So a
    successful [Authenticate] had a non-empty token equal to a configured
    password: an empty administrator password gives no session admin rights,
    and two empty passwords admit no request. *)
Theorem empty_token_rejected (r : Request) w :
  (getToken r = "" <->
     Values_Get (URL_Query r) token_name = ""
     /\ (forall sep token,
           ~ bearer_form (Values_Get (Header r) "Authorization") sep token)
     /\ from_option Cookie_Value "" (Request_Cookie r token_name) = "")
  /\ (getToken r = "" -> Authenticate r w = (Ret (inl CredentialMissing), w))
  /\ (forall session w',
        Authenticate r w = (Ret (inr session), w') ->
        getToken r <> ""
        /\ (getToken r = AdminPassword (config w) \/ getToken r = Password (config w))
        /\ (AdminPassword (config w) = "" -> IsAdmin (profile (deref session w')) = false))
  /\ (AdminPassword (config w) = "" -> Password (config w) = "" ->
      forall session, fst (Authenticate r w) <> Ret (inr session)).
Proof.
  assert (Hsucc : forall session w',
    Authenticate r w = (Ret (inr session), w') ->
    getToken r <> ""
    /\ (getToken r = AdminPassword (config w) \/ getToken r = Password (config w))
    /\ (AdminPassword (config w) = "" -> IsAdmin (profile (deref session w')) = false)).
  { intros session w'. rewrite Authenticate_eq. cbv zeta.
    destruct (String.eqb_spec (getToken r) "") as [|Hne]; [discriminate|].
    destruct (String.eqb_spec (getToken r) (AdminPassword (config w))) as [Ha|Ha];
      destruct (String.eqb_spec (getToken r) (Password (config w))) as [Hu|Hu];
      simpl; try discriminate;
      (destruct (utils_NewUID 32 w) as [err|id]; [discriminate|]);
      intros [= <- <-]; (split; [exact Hne|]); (split; [tauto|]); intros Hempty;
      try congruence;
      by destruct (registered_session id false w) as (_ & _ & _ & Hadm). }
  split; [|split; [|split]].
  - rewrite getToken_eq. cbv zeta.
    destruct (String.eqb_spec (Values_Get (URL_Query r) token_name) "") as [Hq|Hq]; simpl.
    + destruct (bearer_test (Values_Get (Header r) "Authorization")) eqn:Ht.
      * destruct (bearer_test_form _ Ht) as (sep & token & Hf).
        pose proof Hf as (_ & _ & _ & _ & Hne).
        destruct (bearer_form_slices _ _ _ Hf) as (_ & -> & _).
        split; [done|]. intros (_ & Hno & _). by destruct (Hno sep token).
      * split.
        -- intros Hc. split; [exact Hq|]. split.
           ++ intros sep token Hf. apply bearer_form_slices in Hf as (Ht' & _).
              congruence.
           ++ by destruct (Request_Cookie r token_name).
        -- intros (_ & _ & Hc). by destruct (Request_Cookie r token_name).
    + split; [done|]. by intros (Hq' & _).
  - intros Hempty. rewrite Authenticate_eq. cbv zeta. by rewrite Hempty.
  - exact Hsucc.
  - intros Ha Hu session Hret.
    destruct (Authenticate r w) as [res w'] eqn:Hrun. simpl in Hret. subst res.
    destruct (Hsucc _ _ eq_refl) as (Hne & [Hcase|Hcase] & _); congruence.
Qed.

End Properties.

(** * The theorems at concrete managers *)

(** With the administrator password empty, a request that carries no
    credential has the extracted token equal to that password, the minter
    would answer, and [Authenticate] still refuses. *)
Lemma empty_admin_password_refused :
  getToken (request [] [] []) = AdminPassword (config world_open)
  /\ utils_NewUID 32 world_open = inr "uid"
  /\ Authenticate (request [] [] []) world_open
     = (Ret (inl CredentialMissing), world_open).
Proof. vm_compute. by repeat split. Qed.

Lemma Authenticate_credentials_witness :
  getToken (request [] ["Bearer root"] []) <> ""
  /\ exists session w',
       Authenticate (request [] ["Bearer root"] []) world0 = (Ret (inr session), w')
       /\ heap world0 !! session = None
       /\ fst (Get "uid" w') = Ret (Some session)
       /\ IsAdmin (profile (deref session w')) = true.
Proof.
  assert (Hne : getToken (request [] ["Bearer root"] []) <> "")
    by (vm_compute; discriminate).
  split; [exact Hne|].
  destruct (Authenticate_credentials (request [] ["Bearer root"] []) world0 Hne)
    as (Hok & _).
  destruct (Hok true "uid") as (session & w' & Hrun & Hfresh & _ & _ & Hget & Hadm).
  - left. split; reflexivity.
  - reflexivity.
  - exists session, w'. by repeat split.
Defined.

(** C2: the separator after the scheme is skipped without being compared
    with a space.  On a request whose only credential-like part is the header
    "BearerXabc", the extraction as specified finds no credential, and
    [Authenticate] should fail with "no password provided"; [getToken] takes
    "abc" from the header and, "abc" being the user password, [Authenticate]
    registers a non-admin session. *)
Lemma unchecked_separator_accepted :
  getToken_spec (request [] ["BearerXabc"] []) = ""
  /\ getToken (request [] ["BearerXabc"] []) = "abc"
  /\ Authenticate (request [] ["BearerXabc"] []) world0
     = (Ret (inr 2), registered "uid" false world0).
Proof. vm_compute. by repeat split. Qed.

Lemma Delete_found_witness :
  members world1 !! "admin" = Some 0
  /\ connected (deref 0 world1) = true
  /\ fst (Delete "admin" world1) = Ret (Some (Errorf "socket closed"))
  /\ trace (snd (Delete "admin" world1)) = [EDisconnect 0 "member deleted"]
  /\ fst (Get "admin" (snd (Delete "admin" world1))) = Ret None.
Proof.
  assert (Hid : members world1 !! "admin" = Some 0) by (vm_compute; reflexivity).
  destruct (Delete_found "admin" 0 world1 Hid) as (_ & Hc & _ & _ & Hget).
  destruct (Hc eq_refl) as (_ & Hret & Htrace).
  by repeat split.
Defined.

Lemma broadcast_recipients_witness :
  exists evs,
    Broadcast "hello" (Some ["user"]) world1 = (Ret tt, set_trace (trace world1 ++ evs) world1)
    /\ ((0, "hello") ∈ sends evs <->
        exists id, members world1 !! id = Some 0
                   /\ connected (deref 0 world1) = true
                   /\ forall ids, Some ["user"] = Some ids -> id ∉ ids).
Proof.
  destruct (broadcast_recipients "hello" (Some ["user"]) world1)
    as ((evs & Hrun & _ & _ & Hiff) & _).
  exists evs. split; [exact Hrun|apply Hiff].
Defined.

Lemma streaming_follows_connections_witness :
  (forall c : bool, Streaming (StartStream c) = true)
  /\ (forall c : bool, Streaming (StopStream c) = false)
  /\ [7] <> []
  /\ trace (snd (Emit "connected" (Some 1) world2))
     = [EEmit "connected" (Some 1); EStartStream; ECall 7 1]
  /\ trace (snd (Emit "connected" (Some 0) (set_capture true world2)))
     = [EEmit "connected" (Some 0); ECall 7 0]
  /\ trace (snd (Emit "disconnected" (Some 1) (set_capture true world2)))
     = [EEmit "disconnected" (Some 1); EStopStream; ECall 7 1].
Proof.
  assert (Hstart : forall c : bool, Streaming (StartStream c) = true) by reflexivity.
  assert (Hstop : forall c : bool, Streaming (StopStream c) = false) by reflexivity.
  assert (Hne : [7] <> []) by discriminate.
  split; [exact Hstart|]. split; [exact Hstop|]. split; [exact Hne|].
  destruct (streaming_follows_connections [7] 1 0 world2 Hstart Hstop Hne)
    as (Hconn & _).
  destruct (Hconn eq_refl) as (Hidle & _).
  destruct (Hidle eq_refl) as (Hrun & _).
  destruct (streaming_follows_connections [7] 0 0 (set_capture true world2)
              Hstart Hstop Hne) as (Hconn' & _).
  destruct (Hconn' eq_refl) as (_ & Hbusy).
  destruct (streaming_follows_connections [7] 1 0 (set_capture true world2)
              Hstart Hstop Hne) as (_ & Hdisc).
  split; [exact (f_equal (fun p => trace (snd p)) Hrun)|].
  split; [exact (f_equal (fun p => trace (snd p)) (Hbusy eq_refl))|].
  exact (f_equal (fun p => trace (snd p)) (Hdisc eq_refl eq_refl eq_refl)).
Defined.

Lemma Create_then_Get_witness :
  store_closed world0
  /\ exists first second w1 w2,
       Create "guest" (mkProfile "" "Guest" false) world0 = (Ret first, w1)
       /\ Create "guest" (mkProfile "" "Guest" false) w1 = (Ret second, w2)
       /\ first <> second
       /\ Get "guest" w2 = (Ret (Some second), w2)
       /\ forall k, fst (Get k w2) <> Ret (Some first).
Proof.
  assert (Hw : store_closed world0).
  { apply New_store_closed. }
  split; [exact Hw|].
  destruct (Create_then_Get "guest" (mkProfile "" "Guest" false)
              (mkProfile "" "Guest" false) world0) as (_ & Htwice).
  destruct (Htwice Hw) as (first & second & w1 & w2 & H1 & H2 & Hne & Hget & _ & Hgone).
  exists first, second, w1, w2. by repeat split.
Defined.

Lemma Delete_unknown_witness :
  members world0 !! "guest" = None
  /\ Delete "guest" world0 = (Ret (Some MemberNotFound), world0).
Proof.
  assert (Hid : members world0 !! "guest" = None) by (vm_compute; reflexivity).
  split; [exact Hid|]. exact (Delete_unknown "guest" world0 Hid).
Defined.

Lemma empty_token_rejected_witness :
  getToken (request [("password", [""])] ["Bearer "] [mkCookie "password" ""]) = ""
  /\ Authenticate (request [("password", [""])] ["Bearer "] [mkCookie "password" ""])
       world_open
     = (Ret (inl CredentialMissing), world_open).
Proof.
  assert (Hempty : getToken (request [("password", [""])] ["Bearer "]
                               [mkCookie "password" ""]) = "")
    by (vm_compute; reflexivity).
  split; [exact Hempty|].
  destruct (empty_token_rejected
              (request [("password", [""])] ["Bearer "] [mkCookie "password" ""])
              world_open) as (_ & Hrej & _).
  exact (Hrej Hempty).
Defined.

Lemma nil_host_payload_panics_witness :
  host (snd (OnHostCleared 3 world0)) = None
  /\ listeners_of "host_cleared" (snd (OnHostCleared 3 world0)) <> []
  /\ fst (ClearHost (snd (OnHostCleared 3 world0))) = Panic nil_assertion
  /\ fst (ClearHost world0) = Ret tt.
Proof.
  assert (Hh : host (snd (OnHostCleared 3 world0)) = None) by reflexivity.
  assert (Hl : listeners_of "host_cleared" (snd (OnHostCleared 3 world0)) <> [])
    by (vm_compute; discriminate).
  split; [exact Hh|]. split; [exact Hl|].
  destruct (nil_host_payload_panics 3 (snd (OnHostCleared 3 world0)))
    as (Hclear & _).
  destruct (Hclear Hh Hl) as (Hpanic & _).
  split; [exact Hpanic|].
  destruct (nil_host_payload_panics 3 world0) as (_ & _ & _ & _ & Hnone & _).
  apply Hnone. vm_compute. reflexivity.
Defined.

(** The scheme is matched whatever the case of its letters, a scheme other
    than "bearer" leaves the cookie in charge, and the query parameter comes
    first. *)
Example getToken_scheme_case :
  getToken (request [] ["bEaReR tok"] [mkCookie "password" "c"]) = "tok".
Proof. reflexivity. Qed.

Example getToken_other_scheme :
  getToken (request [] ["Basic abcdef"] [mkCookie "password" "c"]) = "c".
Proof. reflexivity. Qed.

Example getToken_query_first :
  getToken (request [("password", ["q"; "r"])] ["Bearer tok"] [mkCookie "password" "c"]) = "q".
Proof. reflexivity. Qed.

(** * Further properties of the package *)

Section Extras.

Context {Capture : Type} `{!CaptureManager Capture} {Payload : Type}.
Context `{!@Collaborators Capture Payload}.

Implicit Types (w : @World Capture Payload) (id : string) (session : loc).
Implicit Types (evs rest : list (@Event Payload)).

(** Runs the monad's plumbing in the goal. *)
Ltac run_monad :=
  repeat progress
    (unfold bind, ret, panic, gets, modify, log, call, assert_SessionCtx,
       capture_StartStream, capture_StopStream, set_trace, set_capture;
     simpl).

(** ** The registry *)

Lemma any_connected_iff w :
  any_connected w = true <->
  exists k l, members w !! k = Some l /\ connected (deref l w) = true.
Proof.
  unfold any_connected. rewrite existsb_exists. split.
  - intros ([k l] & Hin & Hc). exists k, l. split; [|exact Hc].
    apply list_elem_of_In in Hin. rewrite range_perm in Hin.
    by apply elem_of_map_to_list in Hin.
  - intros (k & l & Hin & Hc). exists (k, l). split; [|exact Hc].
    apply list_elem_of_In. rewrite range_perm. by apply elem_of_map_to_list.
Qed.

(** X1: [HasConnectedMembers] reads only: it answers true exactly when
    some registered session is connected, false exactly when none is, in
    whatever order the map is visited. *)
Theorem HasConnectedMembers_iff w :
  snd (HasConnectedMembers w) = w
  /\ (fst (HasConnectedMembers w) = Ret true <->
      exists k l, members w !! k = Some l /\ connected (deref l w) = true)
  /\ (fst (HasConnectedMembers w) = Ret false <->
      forall k l, members w !! k = Some l -> connected (deref l w) = false).
Proof.
  split; [reflexivity|]. unfold HasConnectedMembers, gets. simpl.
  pose proof (any_connected_iff w) as Hiff. split.
  - rewrite <- Hiff. split; [by intros [=]|by intros ->].
  - destruct (any_connected w) eqn:Hany.
    + split; [by intros [=]|]. intros Hnone.
      destruct (proj1 Hiff eq_refl) as (k & l & Hin & Hc).
      rewrite (Hnone k l Hin) in Hc. discriminate.
    + split; [|reflexivity]. intros _ k l Hin.
      destruct (connected (deref l w)) eqn:Hc; [|reflexivity].
      assert (false = true) by (apply Hiff; eauto). discriminate.
Qed.

Lemma registry_injective w (k k' : string) (l : loc) :
  registry_consistent w ->
  members w !! k = Some l -> members w !! k' = Some l -> k = k'.
Proof.
  intros Hw Hk Hk'. destruct (Hw k l Hk) as (s & Hs & <-).
  destruct (Hw k' l Hk') as (s' & Hs' & <-). congruence.
Qed.

(** X2: [Members] reads only and answers every registered session once:
    the list is a rearrangement of the values of the map, one session per
    entry, and in a consistent registry no
    session is listed twice. *)
Theorem Members_all w :
  exists sessions,
    Members w = (Ret sessions, w)
    /\ sessions ≡ₚ map snd (map_to_list (members w))
    /\ length sessions = size (members w)
    /\ (forall session, session ∈ sessions <-> exists k, members w !! k = Some session)
    /\ (registry_consistent w -> NoDup sessions).
Proof.
  exists (map snd (range (members w))). split; [reflexivity|].
  assert (Hperm : map snd (range (members w)) ≡ₚ map snd (map_to_list (members w)))
    by (by rewrite range_perm).
  split; [exact Hperm|]. split; [|split].
  - rewrite Hperm, length_map. apply length_map_to_list.
  - intros session. rewrite Hperm, list_elem_of_fmap. split.
    + intros ([k l] & -> & Hin). exists k. by apply elem_of_map_to_list.
    + intros (k & Hin). exists (k, session). split; [reflexivity|].
      by apply elem_of_map_to_list.
  - intros Hw. rewrite Hperm. apply NoDup_fmap_2_strong; [|apply NoDup_map_to_list].
    intros [k l] [k' l'] Hin Hin' Heq. simpl in Heq. subst l'.
    apply elem_of_map_to_list in Hin, Hin'.
    by rewrite (registry_injective w k k' l Hw Hin Hin').
Qed.

Lemma Delete_eq id w :
  Delete id w =
    match members w !! id with
    | None => (Ret (Some MemberNotFound), w)
    | Some session =>
        let removed := set_members (delete id (members w)) w in
        if connected (deref session w)
        then Disconnect session "member deleted" removed
        else (Ret None, removed)
    end.
Proof.
  unfold Delete, bind, gets, modify, IsConnected, gets. simpl.
  destruct (members w !! id) as [session|]; [|reflexivity]. simpl.
  change (deref session (set_members (delete id (members w)) w))
    with (deref session w).
  by destruct (connected (deref session w)).
Qed.

Lemma Delete_frame id w :
  members (snd (Delete id w)) = delete id (members w)
  /\ host (snd (Delete id w)) = host w
  /\ emmiter (snd (Delete id w)) = emmiter w
  /\ capture (snd (Delete id w)) = capture w.
Proof.
  rewrite Delete_eq. destruct (members w !! id) as [session|] eqn:Hid.
  - cbv zeta. destruct (connected (deref session w)); [|by repeat split].
    unfold Disconnect. by destruct (session_Disconnect _ _ _).
  - simpl. repeat split. symmetry. by apply delete_id.
Qed.

Lemma Emit_frame (name : string) (payload : option loc) w :
  members (snd (Emit name payload w)) = members w
  /\ heap (snd (Emit name payload w)) = heap w
  /\ emmiter (snd (Emit name payload w)) = emmiter w.
Proof.
  rewrite Emit_eq.
  destruct (for_each_run_quiet (listeners_of name w) payload
              (set_trace (trace w ++ [EEmit name payload]) w))
    as (_ & Hm & Hp & He & _).
  by repeat split.
Qed.

Lemma Broadcast_frame (v : Payload) (exclude : option (list string)) w :
  (exists evs, Broadcast v exclude w = (Ret tt, set_trace (trace w ++ evs) w))
  /\ (exists evs, AdminBroadcast v exclude w = (Ret tt, set_trace (trace w ++ evs) w)).
Proof.
  split.
  - destruct (for_each_fan_out v (recipient false exclude) _
                (fun _ _ _ => eq_refl) (Broadcast_body v exclude)
                (range (members w)) w) as (evs & Hrun & _).
    by exists evs.
  - destruct (for_each_fan_out v (recipient true exclude) _
                (fun _ _ _ => eq_refl) (AdminBroadcast_body v exclude)
                (range (members w)) w) as (evs & Hrun & _).
    by exists evs.
Qed.

Lemma consistent_same w w' :
  members w' = members w -> heap w' = heap w ->
  registry_consistent w -> registry_consistent w'.
Proof. intros Hm Hp Hw k l. rewrite Hm, Hp. apply Hw. Qed.

Lemma consistent_store_closed w : registry_consistent w -> store_closed w.
Proof.
  intros Hw k l Hk. destruct (Hw k l Hk) as (s & Hs & _).
  simpl. by apply lookup_lt_Some in Hs.
Qed.

Lemma Create_consistent id (p : MemberProfile) w :
  registry_consistent w -> registry_consistent (snd (Create id p w)).
Proof.
  intros Hw k l. rewrite Create_eq. simpl.
  destruct (decide (id = k)) as [->|Hne].
  - rewrite lookup_insert_eq. intros [= <-]. exists (mkSession k p false).
    split; [|reflexivity].
    rewrite lookup_app_r by lia. by rewrite Nat.sub_diag.
  - rewrite lookup_insert_ne by done. intros Hk.
    destruct (Hw k l Hk) as (s & Hs & Hid). exists s. split; [|exact Hid].
    by apply lookup_app_l_Some.
Qed.

Lemma New_consistent (c : Capture) (cfg : Config) :
  registry_consistent (New (Payload := Payload) c cfg).
Proof.
  unfold New. apply Create_consistent, Create_consistent. intros k l. simpl.
  by rewrite lookup_empty.
Qed.

(** X3: an invariant of the registry.  In the manager [New] builds, and
    after every [Create], [Delete], [SetHost], [ClearHost], [Broadcast],
    [AdminBroadcast] or listener registration on a manager that has it,
    every registered pointer leads to a stored session carrying the id it is
    registered under ([Delete] on condition that the disconnect it may call
    leaves the ids of the stored sessions alone).  So no session is ever
    registered under two ids. *)
Theorem registry_consistent_kept (c : Capture) (cfg : Config) w :
  registry_consistent (New (Payload := Payload) c cfg)
  /\ (registry_consistent w ->
      (forall id (p : MemberProfile), registry_consistent (snd (Create id p w)))
      /\ (forall key,
            (forall l : loc, id <$> heap (snd (Delete key w)) !! l = id <$> heap w !! l) ->
            registry_consistent (snd (Delete key w)))
      /\ (forall h : option loc, registry_consistent (snd (SetHost h w)))
      /\ registry_consistent (snd (ClearHost w))
      /\ (forall (v : Payload) exclude,
            registry_consistent (snd (Broadcast v exclude w))
            /\ registry_consistent (snd (AdminBroadcast v exclude w)))
      /\ (forall name (f : Closure), registry_consistent (snd (On name f w)))
      /\ (forall (k k' : string) (l : loc),
            members w !! k = Some l -> members w !! k' = Some l -> k = k')).
Proof.
  split.
  - apply New_consistent.
  - intros Hw. split; [|split; [|split; [|split; [|split; [|split]]]]].
    + intros id p. by apply Create_consistent.
    + intros key Hids k l Hk.
      destruct (Delete_frame key w) as (Hm & _). rewrite Hm in Hk.
      apply lookup_delete_Some in Hk as [_ Hk].
      destruct (Hw k l Hk) as (s & Hs & Hid).
      specialize (Hids l). unfold loc in *. rewrite Hs in Hids. simpl in Hids.
      destruct (heap (snd (Delete key w)) !! l) as [s'|] eqn:Hs'; [|discriminate].
      exists s'. split; [reflexivity|]. simpl in Hids. congruence.
    + intros h. destruct (Emit_frame "host" h (set_host h w)) as (Hm & Hp & _).
      by apply (consistent_same w).
    + destruct (Emit_frame "host_cleared" (host w) (set_host None w)) as (Hm & Hp & _).
      by apply (consistent_same w).
    + intros v exclude. destruct (Broadcast_frame v exclude w) as ((evs & ->) & (evs' & ->)).
      split; by apply (consistent_same w).
    + intros name f. by apply (consistent_same w).
    + intros k k' l. by apply registry_injective.
Qed.

(** ** Composing the registry operations *)

(** X4: a session just created is not connected, so deleting it right away
    succeeds and calls no disconnect: the trace is as before [Create], the id
    is gone, and when the id was free before, the registry is back to what it
    was. *)
Theorem Create_then_Delete id (p : MemberProfile) w :
  let w1 := snd (Create id p w) in
  fst (Delete id w1) = Ret None
  /\ trace (snd (Delete id w1)) = trace w
  /\ members (snd (Delete id w1)) = delete id (members w)
  /\ (members w !! id = None -> members (snd (Delete id w1)) = members w).
Proof.
  intros w1. subst w1. rewrite Create_eq. cbn [snd].
  rewrite Delete_eq. cbn [members set_members set_heap].
  rewrite lookup_insert_eq. cbv zeta.
  assert (Hc : connected (deref (length (heap w))
            (set_members (<[id := length (heap w)]> (members w))
               (set_heap (heap w ++ [mkSession id p false]) w))) = false).
  { unfold deref, loc. simpl. rewrite lookup_app_r by lia. by rewrite Nat.sub_diag. }
  rewrite Hc. simpl. rewrite delete_insert_eq.
  repeat split. intros Hid. by apply delete_id.
Qed.

(** X5: whatever the first [Delete] of an id answered, a second one answers
    "Member not found." and changes nothing. *)
Theorem Delete_twice id w :
  let w1 := snd (Delete id w) in
  Delete id w1 = (Ret (Some MemberNotFound), w1).
Proof.
  intros w1. rewrite Delete_eq.
  destruct (Delete_frame id w) as (Hm & _). fold w1 in Hm.
  by rewrite Hm, lookup_delete_eq.
Qed.

(** X6: [Create] and [Delete] of one id leave what [Get] finds under every
    other id as it was, and neither touches the host. *)
Theorem registry_frame id (other : string) (p : MemberProfile) w :
  other <> id ->
  fst (Get other (snd (Create id p w))) = fst (Get other w)
  /\ fst (Get other (snd (Delete id w))) = fst (Get other w)
  /\ host (snd (Create id p w)) = host w
  /\ host (snd (Delete id w)) = host w.
Proof.
  intros Hne. destruct (Delete_frame id w) as (Hm & Hh & _).
  unfold Get, gets. simpl. rewrite Hm.
  rewrite lookup_insert_ne, lookup_delete_ne by done. by repeat split.
Qed.

(** X7: [Delete] never looks at the host.  Deleting the session that is the
    host, while it is not connected, succeeds and leaves it the host:
    [HasHost] is still true and [GetHost] still answers the session that
    [Get] no longer finds. *)
Theorem Delete_keeps_host id session w :
  members w !! id = Some session ->
  host w = Some session ->
  connected (deref session w) = false ->
  let w1 := snd (Delete id w) in
  fst (Delete id w) = Ret None
  /\ fst (Get id w1) = Ret None
  /\ fst (GetHost w1) = Ret (Some session)
  /\ fst (HasHost w1) = Ret true.
Proof.
  intros Hid Hh Hc w1. subst w1. rewrite Delete_eq, Hid. cbv zeta. rewrite Hc.
  unfold Get, GetHost, HasHost, gets. simpl. rewrite lookup_delete_eq, Hh.
  by repeat split.
Qed.

(** X8: [Create] over an id replaces the session without disconnecting it.
    When the replaced session was the only connected one, it is still
    connected in the store afterwards and no call left the manager, yet no id
    leads to it any more and [HasConnectedMembers] turns from true to false. *)
Theorem Create_orphans id (p : MemberProfile) (old : loc) w :
  registry_consistent w ->
  members w !! id = Some old ->
  connected (deref old w) = true ->
  (forall k l, k <> id -> members w !! k = Some l -> connected (deref l w) = false) ->
  let w1 := snd (Create id p w) in
  trace w1 = trace w
  /\ connected (deref old w1) = true
  /\ (forall k, fst (Get k w1) <> Ret (Some old))
  /\ fst (HasConnectedMembers w) = Ret true
  /\ fst (HasConnectedMembers w1) = Ret false.
Proof.
  intros Hw Hid Hc Hothers w1.
  assert (Hold : old < length (heap w)).
  { destruct (Hw id old Hid) as (s & Hs & _). by apply lookup_lt_Some in Hs. }
  assert (Hderef : forall l, l < length (heap w) -> deref l w1 = deref l w).
  { intros l Hl. subst w1. rewrite Create_eq. unfold deref, loc. simpl.
    by rewrite lookup_app_l. }
  assert (Hfind : forall k l, members w1 !! k = Some l ->
            l = length (heap w) \/ k <> id /\ members w !! k = Some l).
  { intros k l. subst w1. rewrite Create_eq. simpl.
    destruct (decide (id = k)) as [->|Hne].
    - rewrite lookup_insert_eq. intros [= <-]. by left.
    - rewrite lookup_insert_ne by done. intros Hk. right. by split. }
  split; [reflexivity|]. split; [by rewrite Hderef|]. split; [|split].
  - intros k Hk. unfold Get, gets in Hk. simpl in Hk. injection Hk as Hk.
    destruct (Hfind k old Hk) as [->|[Hne Hk']]; [lia|].
    by destruct Hne; apply (registry_injective w k id old).
  - unfold HasConnectedMembers, gets. simpl. f_equal.
    apply any_connected_iff. eauto.
  - unfold HasConnectedMembers, gets. simpl. f_equal.
    destruct (any_connected w1) eqn:Hany; [|reflexivity].
    apply any_connected_iff in Hany as (k & l & Hk & Hcl).
    destruct (Hfind k l Hk) as [->|[Hne Hk']].
    + subst w1. rewrite Create_eq in Hcl. unfold deref, loc in Hcl. simpl in Hcl.
      rewrite lookup_app_r in Hcl by lia. rewrite Nat.sub_diag in Hcl. discriminate.
    + rewrite Hderef in Hcl.
      * by rewrite (Hothers k l Hne Hk') in Hcl.
      * destruct (Hw k l Hk') as (s & Hs & _). by apply lookup_lt_Some in Hs.
Qed.

(** X9: the manager at start, for any capture manager and configuration:
    [Get] finds an admin session under "admin" carrying the administrator
    password and a non-admin one under "user" carrying the user password,
    two different sessions, and nothing under any other id; there is no
    host, no listener, nobody connected, and no call has left the manager. *)
Theorem New_bootstrap (c : Capture) (cfg : Config) :
  let w := New (Payload := Payload) c cfg in
  (exists admin user,
      admin <> user
      /\ fst (Get "admin" w) = Ret (Some admin)
      /\ fst (Get "user" w) = Ret (Some user)
      /\ deref admin w
         = mkSession "admin" (mkProfile (AdminPassword cfg) "Administrator" true) false
      /\ deref user w = mkSession "user" (mkProfile (Password cfg) "User" false) false)
  /\ (forall k, k <> "admin" -> k <> "user" -> fst (Get k w) = Ret None)
  /\ fst (HasHost w) = Ret false
  /\ fst (HasConnectedMembers w) = Ret false
  /\ (forall name, listeners_of name w = [])
  /\ capture w = c /\ config w = cfg /\ trace w = [].
Proof.
  intros w. split; [|split; [|split; [|split; [|split]]]].
  - exists 0, 1. by repeat split.
  - intros k Ha Hu. unfold Get, gets. simpl.
    rewrite lookup_insert_ne by done. rewrite lookup_insert_ne by done.
    by rewrite lookup_empty.
  - reflexivity.
  - unfold HasConnectedMembers, gets. simpl. f_equal.
    destruct (any_connected w) eqn:Hany; [|reflexivity].
    apply any_connected_iff in Hany as (k & l & Hk & Hc).
    subst w. unfold New in Hk, Hc. simpl in Hk.
    destruct (decide ("user" = k)) as [<-|Hu].
    + rewrite lookup_insert_eq in Hk. injection Hk as <-. discriminate.
    + rewrite lookup_insert_ne in Hk by done.
      destruct (decide ("admin" = k)) as [<-|Ha].
      * rewrite lookup_insert_eq in Hk. injection Hk as <-. discriminate.
      * rewrite lookup_insert_ne in Hk by done. by rewrite lookup_empty in Hk.
  - intros name. unfold listeners_of. simpl. by rewrite lookup_empty.
  - by repeat split.
Qed.

(** ** Events with a session as payload *)

Lemma called_app (t u : list (@Event Payload)) : called (t ++ u) = called t ++ called u.
Proof. unfold called. apply omap_app. Qed.

Lemma run_session (f : Closure) session w :
  exists pre (c : Capture),
    run f (Some session) w
    = (Ret tt, set_trace (trace w ++ pre ++ [ECall (listener_of f) session])
                 (set_capture c w))
    /\ called pre = [] /\ emits pre = []
    /\ (event_of f <> "connected" -> event_of f <> "disconnected" ->
        pre = [] /\ c = capture w).
Proof.
  destruct f as [l|l|l|l|l|l];
    try (exists [], (capture w); by repeat split; destruct w).
  - rewrite run_OnConnected. destruct (Streaming (capture w)).
    + exists [], (capture w). split; [by destruct w|]. by repeat split.
    + exists [EStartStream], (StartStream (capture w)). by repeat split.
  - rewrite run_OnDisconnected.
    destruct (Streaming (capture w) && negb (any_connected w)).
    + exists [EStopStream], (StopStream (capture w)). by repeat split.
    + exists [], (capture w). split; [by destruct w|]. by repeat split.
Qed.

Lemma for_each_run_session (fs : list Closure) session w :
  exists evs (c : Capture),
    for_each fs (fun f => run f (Some session)) w
    = (Ret tt, set_trace (trace w ++ evs) (set_capture c w))
    /\ called evs = map (fun f => (listener_of f, session)) fs
    /\ emits evs = []
    /\ (Forall (fun f => event_of f <> "connected" /\ event_of f <> "disconnected") fs ->
        evs = map (fun f => ECall (listener_of f) session) fs /\ c = capture w).
Proof.
  revert w. induction fs as [|f fs IH]; intros w.
  - exists [], (capture w). split; [|by repeat split].
    cbn [for_each]. unfold ret. rewrite app_nil_r. by destruct w.
  - destruct (run_session f session w) as (pre & c1 & Hrun & Hcalled & Hemits & Hpass).
    destruct (IH (set_trace (trace w ++ pre ++ [ECall (listener_of f) session])
                    (set_capture c1 w))) as (evs & c2 & Hrest & Hcalled' & Hemits' & Hpass').
    exists ((pre ++ [ECall (listener_of f) session]) ++ evs), c2.
    split; [|split; [|split]].
    + cbn [for_each]. unfold bind. rewrite Hrun, Hrest.
      unfold set_trace, set_capture. simpl. by rewrite <- !app_assoc.
    + rewrite !called_app, Hcalled, Hcalled'. reflexivity.
    + rewrite !emits_app, Hemits, Hemits'. reflexivity.
    + intros Hall. apply Forall_cons in Hall as [[Hc Hd] Hall].
      destruct (Hpass Hc Hd) as [-> ->]. destruct Hpass' as [-> ->].
      * by destruct w.
      * split; [reflexivity|]. reflexivity.
Qed.

(** X10: an event raised with a session as payload never panics, whatever
    is registered: [Emit] returns after calling each listener of the event
    once, with that session, in the order of registration, and raises no
    further event.  So [SetHost] of a session always returns, and so does
    [ClearHost] while a host is set. *)
Theorem Emit_session_returns (name : string) session w :
  (exists evs (c : Capture),
      Emit name (Some session) w
      = (Ret tt, set_trace (trace w ++ EEmit name (Some session) :: evs) (set_capture c w))
      /\ called evs = map (fun f => (listener_of f, session)) (listeners_of name w)
      /\ emits evs = [])
  /\ fst (SetHost (Some session) w) = Ret tt
  /\ (host w = Some session -> fst (ClearHost w) = Ret tt).
Proof.
  assert (Hemit : forall name0 w0, exists evs (c : Capture),
      Emit name0 (Some session) w0
      = (Ret tt, set_trace (trace w0 ++ EEmit name0 (Some session) :: evs)
                   (set_capture c w0))
      /\ called evs = map (fun f => (listener_of f, session)) (listeners_of name0 w0)
      /\ emits evs = []).
  { intros name0 w0.
    destruct (for_each_run_session (listeners_of name0 w0) session
                (set_trace (trace w0 ++ [EEmit name0 (Some session)]) w0))
      as (evs & c & Hrun & Hcalled & Hemits & _).
    exists evs, c. split; [|by split]. rewrite Emit_eq.
    change (listeners_of name0 (set_trace (trace w0 ++ [EEmit name0 (Some session)]) w0))
      with (listeners_of name0 w0) in Hrun.
    rewrite Hrun. unfold set_trace, set_capture. simpl. by rewrite <- app_assoc. }
  split; [apply Hemit|]. split.
  - change (SetHost (Some session) w)
      with (Emit "host" (Some session) (set_host (Some session) w)).
    destruct (Hemit "host" (set_host (Some session) w)) as (evs & c & -> & _).
    reflexivity.
  - intros Hh.
    change (ClearHost w) with (Emit "host_cleared" (host w) (set_host None w)).
    rewrite Hh. destruct (Hemit "host_cleared" (set_host None w)) as (evs & c & -> & _).
    reflexivity.
Qed.

Lemma On_frame (name : string) (f : Closure) w :
  On name f w = (Ret tt, set_emmiter (<[name := listeners_of name w ++ [f]]> (emmiter w)) w).
Proof. reflexivity. Qed.

Lemma listeners_of_On_ne (name other : string) (f : Closure) w :
  other <> name -> listeners_of other (snd (On name f w)) = listeners_of other w.
Proof.
  intros Hne. unfold On, modify, listeners_of. simpl. by rewrite lookup_insert_ne.
Qed.

(** X11: registering a listener, with any of the six [On...] methods,
    appends it to the listeners of the method's own event and changes
    nothing else: no other event's listeners, no field of the manager, no
    trace.  The next event of that name raised with a session calls the
    earlier listeners first and the new one last. *)
Theorem registration_appends (f : Closure) session w :
  let w1 := snd (On (event_of f) f w) in
  listeners_of (event_of f) w1 = listeners_of (event_of f) w ++ [f]
  /\ (forall other, other <> event_of f -> listeners_of other w1 = listeners_of other w)
  /\ host w1 = host w /\ members w1 = members w /\ heap w1 = heap w
  /\ capture w1 = capture w /\ trace w1 = trace w
  /\ (exists w2,
        Emit (event_of f) (Some session) w1 = (Ret tt, w2)
        /\ called (trace w2)
           = called (trace w)
             ++ map (fun g => (listener_of g, session)) (listeners_of (event_of f) w)
             ++ [(listener_of f, session)])
  /\ (forall listener : Listener,
        OnHost listener w = On (event_of (OnHost_func listener)) (OnHost_func listener) w
        /\ OnHostCleared listener w
           = On (event_of (OnHostCleared_func listener)) (OnHostCleared_func listener) w
        /\ OnConnected listener w
           = On (event_of (OnConnected_func listener)) (OnConnected_func listener) w
        /\ OnDisconnected listener w
           = On (event_of (OnDisconnected_func listener)) (OnDisconnected_func listener) w
        /\ OnReceivingStarted listener w
           = On (event_of (OnReceivingStarted_func listener))
               (OnReceivingStarted_func listener) w
        /\ OnReceivingStopped listener w
           = On (event_of (OnReceivingStopped_func listener))
               (OnReceivingStopped_func listener) w).
Proof.
  intros w1. pose proof (listeners_of_On (event_of f) f w) as Hl. fold w1 in Hl.
  split; [exact Hl|]. split; [intros other Hne; by apply listeners_of_On_ne|].
  do 5 (split; [reflexivity|]). split; [|by repeat split].
  destruct (for_each_run_session (listeners_of (event_of f) w1) session
              (set_trace (trace w1 ++ [EEmit (event_of f) (Some session)]) w1))
    as (evs & c & Hrun & Hcalled & _).
  eexists. rewrite Emit_eq. split; [exact Hrun|]. simpl.
  rewrite !called_app, Hcalled, Hl, map_app. simpl.
  by rewrite app_nil_r.
Qed.

Lemma On_emitter_wf (f : Closure) w :
  emitter_wf w -> emitter_wf (snd (On (event_of f) f w)).
Proof.
  intros Hw name g Hg. destruct (decide (name = event_of f)) as [->|Hne].
  - rewrite listeners_of_On in Hg. apply elem_of_app in Hg as [Hg|Hg].
    + by apply Hw.
    + apply list_elem_of_singleton in Hg. by subst g.
  - rewrite listeners_of_On_ne in Hg by done. by apply Hw.
Qed.

(** X12: only the "connected" and "disconnected" events are coupled to the
    capture manager.  The six [On...] methods keep every registered function
    under its own event, starting from [New]; in such a manager an event of
    any other name ("host", "host_cleared", "receiving_started",
    "receiving_stopped") raised with a session calls the listeners and
    nothing else: the capture manager is neither asked nor started nor
    stopped. *)
Theorem passthrough_events (c0 : Capture) (cfg : Config) (name : string) session w :
  emitter_wf (New (Payload := Payload) c0 cfg)
  /\ (emitter_wf w ->
      (forall listener : Listener,
          emitter_wf (snd (OnHost listener w))
          /\ emitter_wf (snd (OnHostCleared listener w))
          /\ emitter_wf (snd (OnConnected listener w))
          /\ emitter_wf (snd (OnDisconnected listener w))
          /\ emitter_wf (snd (OnReceivingStarted listener w))
          /\ emitter_wf (snd (OnReceivingStopped listener w)))
      /\ (name <> "connected" -> name <> "disconnected" ->
          Emit name (Some session) w
          = (Ret tt, set_trace (trace w ++ EEmit name (Some session)
                                  :: map (fun f => ECall (listener_of f) session)
                                       (listeners_of name w)) w))).
Proof.
  split.
  - intros n f Hf. unfold listeners_of, New in Hf. simpl in Hf.
    rewrite lookup_empty in Hf. simpl in Hf. by apply elem_of_nil in Hf.
  - intros Hw. split.
    + intros listener. repeat split.
      * apply (On_emitter_wf (OnHost_func listener) w Hw).
      * apply (On_emitter_wf (OnHostCleared_func listener) w Hw).
      * apply (On_emitter_wf (OnConnected_func listener) w Hw).
      * apply (On_emitter_wf (OnDisconnected_func listener) w Hw).
      * apply (On_emitter_wf (OnReceivingStarted_func listener) w Hw).
      * apply (On_emitter_wf (OnReceivingStopped_func listener) w Hw).
    + intros Hc Hd. rewrite Emit_eq.
      destruct (for_each_run_session (listeners_of name w) session
                  (set_trace (trace w ++ [EEmit name (Some session)]) w))
        as (evs & c & Hrun & _ & _ & Hpass).
      change (listeners_of name (set_trace (trace w ++ [EEmit name (Some session)]) w))
        with (listeners_of name w) in Hrun, Hpass.
      destruct Hpass as [-> ->].
      * apply Forall_forall. intros f Hf. rewrite (Hw name f Hf). by split.
      * rewrite Hrun. unfold set_trace, set_capture. simpl. by rewrite <- app_assoc.
Qed.

Lemma for_each_OnDisconnected_members (listeners : list Listener) session w :
  any_connected w = true ->
  for_each (map OnDisconnected_func listeners) (fun f => run f (Some session)) w
  = (Ret tt, set_trace (trace w ++ calls session listeners) w).
Proof.
  revert w. induction listeners as [|l ls IH]; intros w Hany; cbn [map for_each].
  - unfold calls. simpl. by rewrite set_trace_id.
  - unfold bind at 1. rewrite run_OnDisconnected, Hany, andb_false_r.
    rewrite IH by exact Hany.
    unfold set_trace. simpl. by rewrite <- app_assoc.
Qed.

(** X13: a "disconnected" event does not stop the stream while a member is
    still connected, nor when the capture manager is not streaming: the
    subscribers are called and the capture manager is left as it is. *)
Theorem disconnected_keeps_streaming (listeners : list Listener) session w :
  listeners_of "disconnected" w = map OnDisconnected_func listeners ->
  Streaming (capture w) = false \/ fst (HasConnectedMembers w) = Ret true ->
  Emit "disconnected" (Some session) w
  = (Ret tt, set_trace (trace w ++ EEmit "disconnected" (Some session)
                          :: calls session listeners) w).
Proof.
  intros Hl Hcase. rewrite Emit_eq, Hl.
  assert (Hrun : for_each (map OnDisconnected_func listeners)
                   (fun f => run f (Some session))
                   (set_trace (trace w ++ [EEmit "disconnected" (Some session)]) w)
                 = (Ret tt, set_trace
                      (trace (set_trace (trace w ++ [EEmit "disconnected" (Some session)]) w)
                       ++ calls session listeners)
                      (set_trace (trace w ++ [EEmit "disconnected" (Some session)]) w))).
  { destruct Hcase as [Hs|Hany].
    - by apply for_each_OnDisconnected_idle.
    - apply for_each_OnDisconnected_members.
      unfold HasConnectedMembers, gets in Hany. simpl in Hany. by injection Hany. }
  rewrite Hrun. unfold set_trace. simpl. by rewrite <- app_assoc.
Qed.

(** X14: [ClearHost] after [SetHost] of a session: both return, the manager
    has no host, and the trace gained one "host" and then one "host_cleared"
    event, both carrying that session. *)
Theorem SetHost_then_ClearHost session w :
  exists evs w2,
    bind (SetHost (Some session)) (fun _ => ClearHost) w = (Ret tt, w2)
    /\ host w2 = None
    /\ trace w2 = trace w ++ evs
    /\ emits evs = [("host", Some session); ("host_cleared", Some session)].
Proof.
  assert (Hemit : forall name0 w0, exists evs (c : Capture),
      Emit name0 (Some session) w0
      = (Ret tt, set_trace (trace w0 ++ EEmit name0 (Some session) :: evs)
                   (set_capture c w0))
      /\ emits evs = []).
  { intros name0 w0.
    destruct (for_each_run_session (listeners_of name0 w0) session
                (set_trace (trace w0 ++ [EEmit name0 (Some session)]) w0))
      as (evs & c & Hrun & _ & Hemits & _).
    exists evs, c. split; [|exact Hemits]. rewrite Emit_eq.
    change (listeners_of name0 (set_trace (trace w0 ++ [EEmit name0 (Some session)]) w0))
      with (listeners_of name0 w0) in Hrun.
    rewrite Hrun. unfold set_trace, set_capture. simpl. by rewrite <- app_assoc. }
  unfold bind at 1.
  change (SetHost (Some session) w)
    with (Emit "host" (Some session) (set_host (Some session) w)).
  destruct (Hemit "host" (set_host (Some session) w)) as (evs1 & c1 & -> & He1).
  match goal with |- context [ClearHost ?w1] =>
    change (ClearHost w1) with (Emit "host_cleared" (Some session) (set_host None w1));
    destruct (Hemit "host_cleared" (set_host None w1)) as (evs2 & c2 & -> & He2)
  end.
  eexists (EEmit "host" (Some session) :: evs1
           ++ EEmit "host_cleared" (Some session) :: evs2), _.
  split; [reflexivity|]. split; [reflexivity|]. split.
  - simpl. by rewrite <- app_assoc.
  - change (emits (EEmit "host" (Some session) :: evs1
                   ++ EEmit "host_cleared" (Some session) :: evs2))
      with (("host", Some session)
            :: emits (evs1 ++ EEmit "host_cleared" (Some session) :: evs2)).
    rewrite emits_app, He1.
    change (emits (EEmit "host_cleared" (Some session) :: evs2))
      with (("host_cleared", Some session) :: emits evs2).
    by rewrite He2.
Qed.

(** ** More on the broadcasts *)

(** A loop whose body ends normally and only appends to the trace keeps
    every property of the appended events that holds of nothing and is kept
    by appending. *)
Lemma for_each_appends (Q : list (@Event Payload) -> Prop)
    (body : string * loc -> M unit) :
  Q [] ->
  (forall evs1 evs2, Q evs1 -> Q evs2 -> Q (evs1 ++ evs2)) ->
  (forall entry w, exists evs,
      body entry w = (Ret tt, set_trace (trace w ++ evs) w) /\ Q evs) ->
  forall entries w, exists evs,
    for_each entries body w = (Ret tt, set_trace (trace w ++ evs) w) /\ Q evs.
Proof.
  intros Hnil Happ Hbody entries. induction entries as [|entry entries IH]; intros w.
  - exists []. split; [|exact Hnil]. simpl. by rewrite set_trace_id.
  - destruct (Hbody entry w) as (evs1 & Hrun1 & HQ1).
    destruct (IH (set_trace (trace w ++ evs1) w)) as (evs2 & Hrun2 & HQ2).
    exists (evs1 ++ evs2). split; [|by apply Happ].
    cbn [for_each]. unfold bind. rewrite Hrun1, Hrun2. by rewrite set_trace_app.
Qed.

Lemma warnings_app (t u : list (@Event Payload)) :
  warnings (t ++ u) = warnings t ++ warnings u.
Proof. unfold warnings. apply omap_app. Qed.

Lemma Broadcast_turn (v : Payload) (exclude : option (list string))
    (entry : string * loc) w :
  exists evs,
    (let '(id, session) := entry in
     bind (IsConnected session) (fun c =>
       if negb c then ret tt else
       if excluded id exclude then ret tt else
       bind (Send session v) (fun err =>
         match err with
         | Some e => log (EWarn "broadcasting event has failed" e)
         | None => ret tt
         end))) w
    = (Ret tt, set_trace (trace w ++ evs) w)
    /\ (connected (deref (snd entry) w) = false -> evs = [])
    /\ (session_Send (snd entry) v w = None -> warnings evs = [])
    /\ turn_events v evs.
Proof.
  destruct entry as [id session]. unfold IsConnected, Send, turn_events. run_monad.
  destruct (connected (deref session w)); simpl.
  - destruct (excluded id exclude); simpl.
    + exists []. rewrite app_nil_r. split; [by destruct w|]. by repeat split; auto.
    + destruct (session_Send session v w) as [e|]; run_monad.
      * eexists [ESend session v; EWarn _ e]. rewrite <- app_assoc.
        split; [reflexivity|]. split; [done|]. split; [done|]. right. right. eauto.
      * exists [ESend session v]. split; [reflexivity|]. split; [done|].
        split; [done|]. right. left. eauto.
  - exists []. rewrite app_nil_r. split; [by destruct w|]. by repeat split; auto.
Qed.

Lemma AdminBroadcast_turn (v : Payload) (exclude : option (list string))
    (entry : string * loc) w :
  exists evs,
    (let '(id, session) := entry in
     bind (IsConnected session) (fun c =>
     bind (Session_IsAdmin session) (fun a =>
       if negb c || negb a then ret tt else
       if excluded id exclude then ret tt else
       bind (Send session v) (fun err =>
         match err with
         | Some e => log (EWarn "broadcasting admin event has failed" e)
         | None => ret tt
         end)))) w
    = (Ret tt, set_trace (trace w ++ evs) w)
    /\ (connected (deref (snd entry) w) = false -> evs = [])
    /\ (session_Send (snd entry) v w = None -> warnings evs = [])
    /\ turn_events v evs.
Proof.
  destruct entry as [id session].
  unfold IsConnected, Session_IsAdmin, Send, turn_events. run_monad.
  destruct (connected (deref session w)); simpl.
  - destruct (IsAdmin (profile (deref session w))); simpl.
    + destruct (excluded id exclude); simpl.
      * exists []. rewrite app_nil_r. split; [by destruct w|]. by repeat split; auto.
      * destruct (session_Send session v w) as [e|]; run_monad.
        -- eexists [ESend session v; EWarn _ e]. rewrite <- app_assoc.
           split; [reflexivity|]. split; [done|]. split; [done|]. right. right. eauto.
        -- exists [ESend session v]. split; [reflexivity|]. split; [done|].
           split; [done|]. right. left. eauto.
    + exists []. rewrite app_nil_r. split; [by destruct w|]. by repeat split; auto.
  - exists []. rewrite app_nil_r. split; [by destruct w|]. by repeat split; auto.
Qed.

(** X15: with no member connected, [Broadcast] and [AdminBroadcast] do
    nothing at all: no delivery is attempted and the world is as before. *)
Theorem broadcast_to_nobody (v : Payload) (exclude : option (list string)) w :
  fst (HasConnectedMembers w) = Ret false ->
  Broadcast v exclude w = (Ret tt, w)
  /\ AdminBroadcast v exclude w = (Ret tt, w).
Proof.
  intros Hnone. unfold HasConnectedMembers, gets in Hnone. simpl in Hnone.
  injection Hnone as Hnone.
  assert (Hall : Forall (fun entry => connected (deref (snd entry) w) = false)
                   (range (members w))).
  { apply Forall_forall. intros [k l] Hin. simpl.
    destruct (connected (deref l w)) eqn:Hc; [|reflexivity].
    assert (any_connected w = true); [|congruence].
    apply any_connected_iff. exists k, l. split; [|exact Hc].
    rewrite range_perm in Hin. by apply elem_of_map_to_list in Hin. }
  assert (Hloop : forall (body : string * loc -> M unit),
    (forall entry w0, exists evs,
        body entry w0 = (Ret tt, set_trace (trace w0 ++ evs) w0)
        /\ (connected (deref (snd entry) w0) = false -> evs = [])) ->
    for_each (range (members w)) body w = (Ret tt, w)).
  { intros body Hbody. induction Hall as [|entry entries Hc _ IH]; [reflexivity|].
    cbn [for_each]. unfold bind.
    destruct (Hbody entry w) as (evs & Hrun & Hnil). rewrite Hrun, (Hnil Hc).
    rewrite set_trace_id. exact IH. }
  split.
  - apply Hloop. intros entry w0.
    destruct (Broadcast_turn v exclude entry w0) as (evs & Hrun & Hnil & _). eauto.
  - apply Hloop. intros entry w0.
    destruct (AdminBroadcast_turn v exclude entry w0) as (evs & Hrun & Hnil & _). eauto.
Qed.

(** X16: every session [AdminBroadcast] attempts a delivery to is one
    [Broadcast], with the same payload and exclusions, attempts a delivery
    to as well. *)
Theorem AdminBroadcast_within_Broadcast (v : Payload) (exclude : option (list string))
    session w :
  (session, v) ∈ sends (drop (length (trace w)) (trace (snd (AdminBroadcast v exclude w)))) ->
  (session, v) ∈ sends (drop (length (trace w)) (trace (snd (Broadcast v exclude w)))).
Proof.
  destruct (for_each_fan_out v (recipient false exclude) _
              (fun _ _ _ => eq_refl) (Broadcast_body v exclude)
              (range (members w)) w) as (evs & Hrun & Hsends & _).
  destruct (for_each_fan_out v (recipient true exclude) _
              (fun _ _ _ => eq_refl) (AdminBroadcast_body v exclude)
              (range (members w)) w) as (evs' & Hrun' & Hsends' & _).
  change (for_each (range (members w)) _ w) with (Broadcast v exclude w) in Hrun.
  change (for_each (range (members w)) _ w) with (AdminBroadcast v exclude w) in Hrun'.
  rewrite Hrun, Hrun'. simpl. rewrite !drop_app_length, Hsends, Hsends'.
  rewrite !list_elem_of_fmap. intros (entry & Heq & Hin). exists entry.
  split; [exact Heq|]. apply list_elem_of_filter in Hin as [Hr Hin].
  apply list_elem_of_filter. split; [|exact Hin].
  unfold recipient in *. apply andb_true_iff in Hr as [Hr Hex].
  apply andb_true_iff in Hr as [Hc _]. by rewrite Hc, Hex.
Qed.

(** X17: either broadcast appends, per registered entry, nothing, a
    delivery, or a delivery followed by the warning for its failure: a
    warning is only ever logged right after a failed delivery, so warnings
    never outnumber deliveries, and when no delivery fails none is logged. *)
Theorem broadcast_warnings (v : Payload) (exclude : option (list string)) w :
  (exists turns,
      trace (snd (Broadcast v exclude w)) = trace w ++ concat turns
      /\ Forall (turn_events v) turns
      /\ length turns = size (members w)
      /\ length (warnings (concat turns)) <= length (sends (concat turns)))
  /\ (exists turns,
        trace (snd (AdminBroadcast v exclude w)) = trace w ++ concat turns
        /\ Forall (turn_events v) turns
        /\ length turns = size (members w)
        /\ length (warnings (concat turns)) <= length (sends (concat turns)))
  /\ ((forall l w0, session_Send l v w0 = None) ->
      warnings (drop (length (trace w)) (trace (snd (Broadcast v exclude w)))) = []
      /\ warnings (drop (length (trace w)) (trace (snd (AdminBroadcast v exclude w)))) = []).
Proof.
  assert (Hturn : forall evs, turn_events v evs ->
            length (warnings evs) <= length (sends evs)).
  { intros evs [->|[(l & ->)|(l & msg & err & ->)]]; simpl; lia. }
  assert (Hloop : forall (body : string * loc -> M unit),
    (forall entry w0, exists evs,
        body entry w0 = (Ret tt, set_trace (trace w0 ++ evs) w0) /\ turn_events v evs) ->
    forall entries w0, exists turns,
      for_each entries body w0 = (Ret tt, set_trace (trace w0 ++ concat turns) w0)
      /\ Forall (turn_events v) turns /\ length turns = length entries
      /\ length (warnings (concat turns)) <= length (sends (concat turns))).
  { intros body Hbody entries.
    induction entries as [|entry entries IH]; intros w0.
    - exists []. simpl. rewrite set_trace_id. by repeat split.
    - destruct (Hbody entry w0) as (evs1 & Hrun1 & Ht1).
      destruct (IH (set_trace (trace w0 ++ evs1) w0)) as (turns & Hrun2 & Hts & Hlen & Hle).
      exists (evs1 :: turns). split; [|split; [|split]].
      + cbn [for_each]. unfold bind. rewrite Hrun1, Hrun2. by rewrite set_trace_app.
      + by constructor.
      + simpl. by rewrite Hlen.
      + simpl. rewrite warnings_app, sends_app, !length_app.
        specialize (Hturn evs1 Ht1). lia. }
  assert (Hsize : length (range (members w)) = size (members w)).
  { rewrite range_perm. apply length_map_to_list. }
  split; [|split].
  - destruct (Hloop _ (fun entry w0 =>
        let '(ex_intro _ evs (conj Hrun (conj _ (conj _ Ht))))
          := Broadcast_turn v exclude entry w0 in
        ex_intro _ evs (conj Hrun Ht)) (range (members w)) w)
      as (turns & Hrun & Hts & Hlen & Hle).
    exists turns. change (for_each (range (members w)) _ w)
      with (Broadcast v exclude w) in Hrun.
    rewrite Hrun. simpl. rewrite Hlen, Hsize. by repeat split.
  - destruct (Hloop _ (fun entry w0 =>
        let '(ex_intro _ evs (conj Hrun (conj _ (conj _ Ht))))
          := AdminBroadcast_turn v exclude entry w0 in
        ex_intro _ evs (conj Hrun Ht)) (range (members w)) w)
      as (turns & Hrun & Hts & Hlen & Hle).
    exists turns. change (for_each (range (members w)) _ w)
      with (AdminBroadcast v exclude w) in Hrun.
    rewrite Hrun. simpl. rewrite Hlen, Hsize. by repeat split.
  - intros Hok. split.
    + destruct (for_each_appends (fun evs => warnings evs = []) _ eq_refl
          (fun a b Ha Hb => eq_trans (warnings_app a b)
             (eq_trans (f_equal2 app Ha Hb) eq_refl))
          (fun entry w0 =>
             let '(ex_intro _ evs (conj Hrun (conj _ (conj Hw _))))
               := Broadcast_turn v exclude entry w0 in
             ex_intro _ evs (conj Hrun (Hw (Hok _ _))))
          (range (members w)) w) as (evs & Hrun & Hw).
      change (for_each (range (members w)) _ w) with (Broadcast v exclude w) in Hrun.
      rewrite Hrun. simpl. by rewrite drop_app_length.
    + destruct (for_each_appends (fun evs => warnings evs = []) _ eq_refl
          (fun a b Ha Hb => eq_trans (warnings_app a b)
             (eq_trans (f_equal2 app Ha Hb) eq_refl))
          (fun entry w0 =>
             let '(ex_intro _ evs (conj Hrun (conj _ (conj Hw _))))
               := AdminBroadcast_turn v exclude entry w0 in
             ex_intro _ evs (conj Hrun (Hw (Hok _ _))))
          (range (members w)) w) as (evs & Hrun & Hw).
      change (for_each (range (members w)) _ w) with (AdminBroadcast v exclude w) in Hrun.
      rewrite Hrun. simpl. by rewrite drop_app_length.
Qed.

(** ** The Authorization header *)

Lemma ascii_ToUpper_B (c : ascii) : ascii_ToUpper c = "B"%char <-> spelled "B" "b" c.
Proof.
  destruct c as [[] [] [] [] [] [] [] []]; vm_compute; split; intros Hc;
    try discriminate Hc; auto; destruct Hc as [Hc|Hc]; discriminate Hc.
Qed.

Lemma ascii_ToUpper_E (c : ascii) : ascii_ToUpper c = "E"%char <-> spelled "E" "e" c.
Proof.
  destruct c as [[] [] [] [] [] [] [] []]; vm_compute; split; intros Hc;
    try discriminate Hc; auto; destruct Hc as [Hc|Hc]; discriminate Hc.
Qed.

Lemma ascii_ToUpper_A (c : ascii) : ascii_ToUpper c = "A"%char <-> spelled "A" "a" c.
Proof.
  destruct c as [[] [] [] [] [] [] [] []]; vm_compute; split; intros Hc;
    try discriminate Hc; auto; destruct Hc as [Hc|Hc]; discriminate Hc.
Qed.

Lemma ascii_ToUpper_R (c : ascii) : ascii_ToUpper c = "R"%char <-> spelled "R" "r" c.
Proof.
  destruct c as [[] [] [] [] [] [] [] []]; vm_compute; split; intros Hc;
    try discriminate Hc; auto; destruct Hc as [Hc|Hc]; discriminate Hc.
Qed.

Lemma bearer_test_spelling (bearer : string) :
  bearer_test bearer = true <-> exists sep token, bearer_spelling bearer sep token.
Proof.
  split.
  - unfold bearer_test. intros [Hlen Hup]%andb_true_iff.
    apply Nat.ltb_lt in Hlen. apply String.eqb_eq in Hup.
    destruct bearer as [|c1 [|c2 [|c3 [|c4 [|c5 [|c6 [|sep [|c token]]]]]]]];
      simpl in Hlen; try lia.
    unfold slice in Hup. simpl in Hup.
    injection Hup as H1 H2 H3 H4 H5 H6.
    exists sep, (String c token), c1, c2, c3, c4, c5, c6.
    split; [reflexivity|].
    split; [by apply ascii_ToUpper_B|]. split; [by apply ascii_ToUpper_E|].
    split; [by apply ascii_ToUpper_A|]. split; [by apply ascii_ToUpper_R|].
    split; [by apply ascii_ToUpper_E|]. split; [by apply ascii_ToUpper_R|]. done.
  - intros (sep & token & c1 & c2 & c3 & c4 & c5 & c6 & -> & H1 & H2 & H3 & H4 & H5 & H6 & Hne).
    apply ascii_ToUpper_B in H1. apply ascii_ToUpper_E in H2.
    apply ascii_ToUpper_A in H3. apply ascii_ToUpper_R in H4.
    apply ascii_ToUpper_E in H5. apply ascii_ToUpper_R in H6.
    destruct token as [|c rest]; [done|].
    unfold bearer_test, slice. simpl. by rewrite H1, H2, H3, H4, H5, H6.
Qed.

(** X18: which Authorization headers [getToken] uses, when the query gives
    no token.  A header is used exactly when it has at least eight bytes and
    its first six spell "bearer", each letter in either case (64 spellings);
    the token is then everything from the eighth byte on.  Any other header,
    in particular one of seven bytes or less such as "Bearer " alone, is
    ignored and the cookie decides. *)
Theorem Authorization_header_exact (r : Request) :
  Values_Get (URL_Query r) token_name = "" ->
  let bearer := Values_Get (Header r) "Authorization" in
  let cookie := from_option Cookie_Value "" (Request_Cookie r token_name) in
  (forall sep token, bearer_spelling bearer sep token -> getToken r = token)
  /\ ((forall sep token, ~ bearer_spelling bearer sep token) -> getToken r = cookie)
  /\ (String.length bearer <= 7 -> getToken r = cookie).
Proof.
  intros Hq bearer cookie.
  assert (Hother : bearer_test bearer = false -> getToken r = cookie).
  { intros Ht. rewrite getToken_eq. cbv zeta. fold bearer. rewrite Hq, Ht. simpl.
    subst cookie. by destruct (Request_Cookie r token_name). }
  split; [|split].
  - intros sep token Hsp.
    assert (Ht : bearer_test bearer = true) by (apply bearer_test_spelling; eauto).
    rewrite getToken_eq. cbv zeta. fold bearer. rewrite Hq, Ht. simpl.
    destruct Hsp as (c1 & c2 & c3 & c4 & c5 & c6 & -> & _).
    unfold slice_from. simpl. rewrite Nat.sub_0_r. apply substring_all.
  - intros Hno. apply Hother. destruct (bearer_test bearer) eqn:Ht; [|reflexivity].
    apply bearer_test_spelling in Ht as (sep & token & Hsp). by destruct (Hno sep token).
  - intros Hlen. apply Hother. unfold bearer_test.
    replace (7 <? String.length bearer)%nat with false; [reflexivity|].
    symmetry. apply Nat.ltb_ge. exact Hlen.
Qed.

End Extras.

(** * The further properties at concrete managers *)

Lemma Members_all_witness :
  registry_consistent world0
  /\ exists sessions,
       Members world0 = (Ret sessions, world0)
       /\ length sessions = 2 /\ NoDup sessions.
Proof.
  assert (Hw : registry_consistent world0) by apply New_consistent.
  split; [exact Hw|].
  destruct (Members_all world0) as (sessions & Hrun & _ & Hlen & _ & Hnodup).
  exists sessions. split; [exact Hrun|]. split; [exact Hlen|]. exact (Hnodup Hw).
Defined.

Lemma registry_consistent_kept_witness :
  registry_consistent world0
  /\ registry_consistent (snd (Create "guest" (mkProfile "" "Guest" false) world0))
  /\ registry_consistent (snd (Delete "admin" world0)).
Proof.
  destruct (registry_consistent_kept false sample_config world0) as (Hnew & Hkept).
  destruct (Hkept Hnew) as (Hcreate & Hdelete & _).
  split; [exact Hnew|]. split; [apply Hcreate|]. apply Hdelete.
  intros l. vm_compute. reflexivity.
Defined.

Lemma Create_then_Delete_witness :
  members world0 !! "guest" = None
  /\ fst (Delete "guest" (snd (Create "guest" (mkProfile "" "Guest" false) world0))) = Ret None
  /\ members (snd (Delete "guest" (snd (Create "guest" (mkProfile "" "Guest" false) world0))))
     = members world0.
Proof.
  assert (Hid : members world0 !! "guest" = None) by (vm_compute; reflexivity).
  split; [exact Hid|].
  destruct (Create_then_Delete "guest" (mkProfile "" "Guest" false) world0)
    as (Hret & _ & _ & Hback).
  split; [exact Hret|exact (Hback Hid)].
Defined.

Lemma registry_frame_witness :
  "user" <> "admin"
  /\ fst (Get "user" (snd (Delete "admin" world1))) = fst (Get "user" world1)
  /\ fst (Get "user" (snd (Create "admin" (mkProfile "" "" false) world1)))
     = fst (Get "user" world1).
Proof.
  assert (Hne : "user" <> "admin") by discriminate.
  split; [exact Hne|].
  destruct (registry_frame "admin" "user" (mkProfile "" "" false) world1 Hne)
    as (Hcreate & Hdelete & _).
  split; [exact Hdelete|exact Hcreate].
Defined.

Lemma Delete_keeps_host_witness :
  members world_host !! "admin" = Some 0
  /\ host world_host = Some 0
  /\ connected (deref 0 world_host) = false
  /\ fst (Get "admin" (snd (Delete "admin" world_host))) = Ret None
  /\ fst (GetHost (snd (Delete "admin" world_host))) = Ret (Some 0)
  /\ fst (HasHost (snd (Delete "admin" world_host))) = Ret true.
Proof.
  assert (Hid : members world_host !! "admin" = Some 0) by (vm_compute; reflexivity).
  split; [exact Hid|]. split; [reflexivity|]. split; [reflexivity|].
  destruct (Delete_keeps_host "admin" 0 world_host Hid eq_refl eq_refl)
    as (_ & Hget & Hhost & Hhas).
  by repeat split.
Defined.

Lemma world0_entries (k : string) (l : loc) :
  members world0 !! k = Some l -> k = "admin" /\ l = 0 \/ k = "user" /\ l = 1.
Proof.
  unfold world0, New. simpl.
  destruct (decide ("user" = k)) as [<-|Hu].
  - rewrite lookup_insert_eq. intros [= <-]. by right.
  - rewrite lookup_insert_ne by done.
    destruct (decide ("admin" = k)) as [<-|Ha].
    + rewrite lookup_insert_eq. intros [= <-]. by left.
    + rewrite lookup_insert_ne by done. by rewrite lookup_empty.
Qed.

Lemma Create_orphans_witness :
  registry_consistent world_admin_connected
  /\ members world_admin_connected !! "admin" = Some 0
  /\ connected (deref 0 world_admin_connected) = true
  /\ fst (HasConnectedMembers world_admin_connected) = Ret true
  /\ fst (HasConnectedMembers
            (snd (Create "admin" (mkProfile "" "" false) world_admin_connected)))
     = Ret false
  /\ connected (deref 0 (snd (Create "admin" (mkProfile "" "" false)
                                world_admin_connected))) = true.
Proof.
  assert (Hw : registry_consistent world_admin_connected).
  { intros k l Hk. apply world0_entries in Hk as [[-> ->]|[-> ->]]; eexists; by split. }
  assert (Hid : members world_admin_connected !! "admin" = Some 0)
    by (vm_compute; reflexivity).
  assert (Hothers : forall k l, k <> "admin" ->
            members world_admin_connected !! k = Some l ->
            connected (deref l world_admin_connected) = false).
  { intros k l Hne Hk. apply world0_entries in Hk as [[-> ->]|[-> ->]]; done. }
  split; [exact Hw|]. split; [exact Hid|]. split; [reflexivity|].
  destruct (Create_orphans "admin" (mkProfile "" "" false) 0 world_admin_connected
              Hw Hid eq_refl Hothers) as (_ & Hstill & _ & Hbefore & Hafter).
  by repeat split.
Defined.

Lemma New_bootstrap_witness :
  "guest" <> "admin" /\ "guest" <> "user"
  /\ fst (Get "guest" world0) = Ret None
  /\ fst (HasConnectedMembers world0) = Ret false.
Proof.
  assert (Ha : "guest" <> "admin") by discriminate.
  assert (Hu : "guest" <> "user") by discriminate.
  split; [exact Ha|]. split; [exact Hu|].
  destruct (New_bootstrap (Payload := string) false sample_config)
    as (_ & Hnone & _ & Hconn & _).
  split; [exact (Hnone "guest" Ha Hu)|exact Hconn].
Defined.

Lemma Emit_session_returns_witness :
  host world_host = Some 0
  /\ fst (ClearHost (snd (OnHostCleared 3 world_host))) = Ret tt
  /\ fst (SetHost (Some 1) world_listening) = Ret tt.
Proof.
  split; [reflexivity|].
  destruct (Emit_session_returns "host" 0 (snd (OnHostCleared 3 world_host)))
    as (_ & _ & Hclear).
  destruct (Emit_session_returns "host" 1 world_listening) as (_ & Hset & _).
  split; [exact (Hclear eq_refl)|exact Hset].
Defined.

Lemma registration_appends_witness :
  "host_cleared" <> event_of (OnHost_func 6)
  /\ listeners_of "host" (snd (OnHost 6 world_listening))
     = [OnHost_func 4; OnHost_func 5; OnHost_func 6]
  /\ listeners_of "host_cleared" (snd (OnHost 6 world_listening))
     = listeners_of "host_cleared" world_listening.
Proof.
  assert (Hne : "host_cleared" <> event_of (OnHost_func 6)) by discriminate.
  split; [exact Hne|].
  destruct (registration_appends (OnHost_func 6) 0 world_listening)
    as (Hown & Hothers & _).
  split; [exact Hown|exact (Hothers "host_cleared" Hne)].
Defined.

Lemma passthrough_events_witness :
  emitter_wf world_listening
  /\ "host" <> "connected" /\ "host" <> "disconnected"
  /\ Emit "host" (Some 1) world_listening
     = (Ret tt, set_trace [EEmit "host" (Some 1); ECall 4 1; ECall 5 1] world_listening).
Proof.
  destruct (passthrough_events false sample_config "host" 1 world0) as (Hnew & Hkept).
  destruct (Hkept Hnew) as (Hreg & _).
  destruct (Hreg 4) as (Hfour & _).
  destruct (passthrough_events false sample_config "host" 1 (snd (OnHost 4 world0)))
    as (_ & Hkept').
  destruct (Hkept' Hfour) as (Hreg' & _).
  destruct (Hreg' 5) as (Hw & _).
  assert (Hc : "host" <> "connected") by discriminate.
  assert (Hd : "host" <> "disconnected") by discriminate.
  split; [exact Hw|]. split; [exact Hc|]. split; [exact Hd|].
  destruct (passthrough_events false sample_config "host" 1 world_listening)
    as (_ & Hkept'').
  destruct (Hkept'' Hw) as (_ & Hemit).
  exact (Hemit Hc Hd).
Defined.

Lemma disconnected_keeps_streaming_witness :
  listeners_of "disconnected" world_streaming = map OnDisconnected_func [7]
  /\ fst (HasConnectedMembers world_streaming) = Ret true
  /\ trace (snd (Emit "disconnected" (Some 1) world_streaming))
     = [EEmit "disconnected" (Some 1); ECall 7 1].
Proof.
  assert (Hl : listeners_of "disconnected" world_streaming = map OnDisconnected_func [7])
    by (vm_compute; reflexivity).
  assert (Hany : fst (HasConnectedMembers world_streaming) = Ret true)
    by (vm_compute; reflexivity).
  split; [exact Hl|]. split; [exact Hany|].
  pose proof (f_equal (fun p => trace (snd p))
                (disconnected_keeps_streaming [7] 1 world_streaming Hl (or_intror Hany)))
    as Hrun.
  cbv beta in Hrun. etransitivity; [exact Hrun|]. vm_compute. reflexivity.
Defined.

Lemma broadcast_to_nobody_witness :
  fst (HasConnectedMembers world0) = Ret false
  /\ Broadcast "hello" None world0 = (Ret tt, world0)
  /\ AdminBroadcast "hello" None world0 = (Ret tt, world0).
Proof.
  assert (Hnone : fst (HasConnectedMembers world0) = Ret false)
    by (vm_compute; reflexivity).
  split; [exact Hnone|]. exact (broadcast_to_nobody "hello" None world0 Hnone).
Defined.

Lemma AdminBroadcast_within_Broadcast_witness :
  (0, "hello") ∈ sends (drop (length (trace world1))
                          (trace (snd (AdminBroadcast "hello" None world1))))
  /\ (0, "hello") ∈ sends (drop (length (trace world1))
                             (trace (snd (Broadcast "hello" None world1)))).
Proof.
  assert (Hadmin : (0, "hello") ∈ sends (drop (length (trace world1))
                     (trace (snd (AdminBroadcast "hello" None world1))))).
  { vm_compute. apply list_elem_of_here. }
  split; [exact Hadmin|].
  exact (AdminBroadcast_within_Broadcast "hello" None 0 world1 Hadmin).
Defined.

Lemma broadcast_warnings_witness :
  (forall (l : loc) (w0 : @World bool string),
      @session_Send _ _ reliable_collaborators l "hello" w0 = None)
  /\ warnings (drop (length (trace world1))
                 (trace (snd (@Broadcast _ _ reliable_collaborators "hello" None world1))))
     = [].
Proof.
  assert (Hok : forall (l : loc) (w0 : @World bool string),
            @session_Send _ _ reliable_collaborators l "hello" w0 = None)
    by reflexivity.
  split; [exact Hok|].
  destruct (@broadcast_warnings _ _ reliable_collaborators "hello" None world1)
    as (_ & _ & Hquiet).
  exact (proj1 (Hquiet Hok)).
Defined.

Lemma Authorization_header_exact_witness :
  Values_Get (URL_Query (request [] ["bEaReR\tdeadbeef"] [])) token_name = ""
  /\ getToken (request [] ["BEARER secret"] [mkCookie "password" "c"]) = "secret"
  /\ getToken (request [] ["Bearer "] [mkCookie "password" "c"]) = "c".
Proof.
  split; [reflexivity|]. split.
  - destruct (Authorization_header_exact
                (request [] ["BEARER secret"] [mkCookie "password" "c"]) eq_refl)
      as (Hused & _).
    apply (Hused " "%char "secret").
    exists "B"%char, "E"%char, "A"%char, "R"%char, "E"%char, "R"%char.
    split; [reflexivity|]. unfold spelled. by repeat split; auto.
  - destruct (Authorization_header_exact
                (request [] ["Bearer "] [mkCookie "password" "c"]) eq_refl)
      as (_ & _ & Hshort).
    apply Hshort. vm_compute. lia.
Defined.
